(** * sessh Python SDK: the [SesshClient] wrapper around the [sessh] CLI

    A shallow embedding of [sessh/client.py].  The client is a thin layer:
    every method builds an environment and an argument vector, spawns the
    [sessh] binary through [subprocess.run], and (except for [attach])
    decodes the child's standard output with [json.loads].

    Python objects that the methods share or mutate live in an explicit
    interpreter state: the receiver [self], the mapping [os.environ], the
    dictionaries allocated by [dict.copy], and the trace of child processes
    spawned so far.  Methods are actions of a small state-and-exception
    monad over that state.  [json.loads] and the outcome of a child process
    are parameters of the client; a JSON decoder for the response schema
    and a few sample children instantiate them.

    The last part of the model is the completion protocol of the engine
    behind the binary, which the design text describes and [client.py]
    only relies on. *)

From Stdlib Require Import ZArith String Ascii List Lia.
From Stdlib Require Import DecimalString DecimalZ DecimalPos.
From stdpp Require Import base option list gmap strings.

Set Warnings "-register-all".

Open Scope string_scope.
Open Scope Z_scope.
Open Scope list_scope.

(** ** Python values used by the client *)

Module Py.

(** [str(n)] for an [int]: the decimal rendering, with a leading minus
    sign for negative numbers. *)
Definition str (n : Z) : string := NilZero.string_of_int (Z.to_int n).

(** Reading a decimal rendering back ([int(s)] restricted to what
    [str] produces). *)
Definition int (s : string) : option Z :=
  Z.of_int <$> NilZero.int_of_string s.

(** Truthiness of an [Optional[int]]: [None] and [0] are falsy. *)
Definition truthy_int (p : option Z) : bool :=
  match p with
  | Some n => negb (n =? 0)
  | None => false
  end.

(** Truthiness of a [str]: only the empty string is falsy. *)
Definition truthy_str (s : string) : bool :=
  match s with
  | EmptyString => false
  | String _ _ => true
  end.

(** Truthiness of an [Optional[str]]: [None] and the empty string are
    falsy. *)
Definition truthy_opt (o : option string) : bool :=
  match o with
  | Some s => truthy_str s
  | None => false
  end.

(** [x or d] where [x : Optional[str]] and [d : str]. *)
Definition or_str (x : option string) (d : string) : string :=
  match x with
  | Some s => if truthy_str s then s else d
  | None => d
  end.

(** [sub in s] for strings. *)
Fixpoint contains (sub s : string) : bool :=
  String.prefix sub s ||
  match s with
  | EmptyString => false
  | String _ s' => contains sub s'
  end.

End Py.

(** ** Data model *)

(** Environments: mappings from variable names to values, as [os.environ]
    and the [env=] argument of [subprocess.run]. *)
Abbreviation Env := (gmap string string).

(** The attributes that [SesshClient.__init__] stores on [self]. *)
Record SesshClient := mkClient {
  alias : string;
  host : string;
  port : option Z;
  sessh_bin : string;
  identity : option string;
  proxyjump : option string;
}.

(** [SesshClient.__init__]: the arguments after [host] are optional and
    default to [None]; [sessh_bin] falls back to ["sessh"]. *)
Definition __init__ (alias host : string) (port : option Z)
    (sessh_bin identity proxyjump : option string) : SesshClient :=
  {| alias := alias;
     host := host;
     port := port;
     sessh_bin := Py.or_str sessh_bin "sessh";
     identity := identity;
     proxyjump := proxyjump |}.

(** One call of [subprocess.run]: the argument vector, the contents of the
    [env=] mapping at the time of the call, and the two keyword flags the
    client uses. *)
Record SpawnRequest := mkSpawn {
  argv : list string;
  child_env : Env;
  capture_output : bool;
  text : bool;
}.

(** What [subprocess.run] hands back once the child has exited. *)
Record CompletedProcess := mkCompleted {
  returncode : Z;
  stdout : string;
  stderr : string;
}.

(** Exceptions that can leave a method: the [RuntimeError]s raised by the
    client itself, whatever [subprocess.run] raises when the child cannot
    be started, and what [json.loads] raises besides
    [json.JSONDecodeError]: [ValueError] for an integer beyond the digit
    limit of the interpreter, [RecursionError] for a document nested
    beyond its recursion limit. *)
Inductive exn :=
  | RuntimeError (msg : string)
  | OSError (msg : string)
  | ValueError (msg : string)
  | RecursionError (msg : string).

Inductive result (A : Type) :=
  | Return (a : A)
  | Raise (e : exn).
Arguments Return {A} a.
Arguments Raise {A} e.

(** The ways a call of [json.loads] ends: it returns the decoded
    document, it raises [json.JSONDecodeError], or it raises an exception
    of another class ([ValueError] on an integer beyond the digit limit
    of the interpreter, [RecursionError] on nesting beyond its recursion
    limit).  The handler of [_run_sessh] names [json.JSONDecodeError]
    only, so the third way is kept apart from the second. *)
Inductive decoded (A : Type) :=
  | Decoded (v : A)
  | JSONDecodeError
  | Uncaught (e : exn).
Arguments Decoded {A} v.
Arguments JSONDecodeError {A}.
Arguments Uncaught {A} e.

(** References to dictionary objects: [os.environ] itself, or a dictionary
    allocated during the call. *)
Inductive dict_ref :=
  | Environ
  | Dict (i : nat).

(** The interpreter state a method runs in. *)
Record State := mkState {
  self : SesshClient;
  os_environ : Env;
  dicts : list Env;
  spawned : list SpawnRequest;
}.

Definition set_os_environ (e : Env) (st : State) : State :=
  {| self := self st; os_environ := e; dicts := dicts st;
     spawned := spawned st |}.

Definition set_dicts (ds : list Env) (st : State) : State :=
  {| self := self st; os_environ := os_environ st; dicts := ds;
     spawned := spawned st |}.

Definition set_spawned (rs : list SpawnRequest) (st : State) : State :=
  {| self := self st; os_environ := os_environ st; dicts := dicts st;
     spawned := rs |}.

(** ** The state-and-exception monad *)

Definition M (A : Type) : Type := State -> result A * State.

Definition ret {A} (a : A) : M A := fun st => (Return a, st).

Definition bind {A B} (m : M A) (k : A -> M B) : M B :=
  fun st =>
    match m st with
    | (Return a, st') => k a st'
    | (Raise e, st') => (Raise e, st')
    end.

Definition raise {A} (e : exn) : M A := fun st => (Raise e, st).

Notation "x <- m ;; k" := (bind m (fun x => k))
  (at level 100, m at next level, right associativity).
Notation "m ;;; k" := (bind m (fun _ => k))
  (at level 100, right associativity).

(** [if b: body] for a statement. *)
Definition when (b : bool) (body : M unit) : M unit :=
  if b then body else ret tt.

(** Reading an attribute of [self]. *)
Definition getattr {A} (f : SesshClient -> A) : M A :=
  fun st => (Return (f (self st)), st).

(** The contents of the dictionary a reference points to. *)
Definition deref (r : dict_ref) (st : State) : Env :=
  match r with
  | Environ => os_environ st
  | Dict i => default ∅ (dicts st !! i)
  end.

(** [d.copy()]: a fresh dictionary with the same items. *)
Definition dict_copy (r : dict_ref) : M dict_ref :=
  fun st =>
    (Return (Dict (length (dicts st))),
     set_dicts (dicts st ++ [deref r st]) st).

(** [d[k] = v]: the update is made in place, on the object [r] points
    to. *)
Definition dict_setitem (r : dict_ref) (k v : string) : M unit :=
  fun st =>
    (Return tt,
     match r with
     | Environ => set_os_environ (<[k := v]> (os_environ st)) st
     | Dict i => set_dicts (alter (insert k v) i (dicts st)) st
     end).

(** [if x: body] where [x : Optional[str]]; in the body [x] is a
    non-empty string. *)
Definition if_str (x : option string) (body : string -> M unit) : M unit :=
  match x with
  | Some s => when (Py.truthy_str s) (body s)
  | None => ret tt
  end.

(** ** The client *)

Section Client.

(** The type of decoded JSON documents and [json.loads]. *)
Variable JSON : Type.
Variable json_loads : string -> decoded JSON.

(** The world outside the interpreter: given the children spawned
    earlier and a new request, either the child cannot be started (an
    exception leaves [subprocess.run]) or it runs to completion. *)
Variable spawn_child :
  list SpawnRequest -> SpawnRequest -> result CompletedProcess.

(** [subprocess.run(args, capture_output=.., text=.., env=env,
    check=False)].  The child receives the items the dictionary [env]
    holds when the call is made.  With [check=False] a nonzero exit code
    raises nothing. *)
Definition subprocess_run (args : list string) (env : dict_ref)
    (capture txt : bool) : M CompletedProcess :=
  fun st =>
    let req := {| argv := args; child_env := deref env st;
                  capture_output := capture; text := txt |} in
    (spawn_child (spawned st) req,
     set_spawned (spawned st ++ [req]) st).

(** [SesshClient._run_sessh(self, cmd, *args)].  The [except] clause
    around [json.loads] names [json.JSONDecodeError] only; any other
    exception of [json.loads] leaves the method as it is. *)
Definition _run_sessh (cmd : string) (args : list string) : M JSON :=
  env <- dict_copy Environ ;;
  dict_setitem env "SESSH_JSON" "1" ;;;
  self_identity <- getattr identity ;;
  if_str self_identity (fun p => dict_setitem env "SESSH_IDENTITY" p) ;;;
  self_proxyjump <- getattr proxyjump ;;
  if_str self_proxyjump (fun p => dict_setitem env "SESSH_PROXYJUMP" p) ;;;
  self_sessh_bin <- getattr sessh_bin ;;
  self_alias <- getattr alias ;;
  self_host <- getattr host ;;
  let sessh_args := [self_sessh_bin; cmd; self_alias; self_host] in
  self_port <- getattr port ;;
  let sessh_args :=
    match self_port with
    | Some n => if Py.truthy_int (Some n)
                then sessh_args ++ [Py.str n] else sessh_args
    | None => sessh_args
    end in
  let sessh_args := sessh_args ++ args in
  result <- subprocess_run sessh_args env true true ;;
  if negb (returncode result =? 0) && negb (Py.truthy_str (stdout result))
  then
    raise (RuntimeError
      ("sessh " +:+ cmd +:+ " failed: " +:+
       (if Py.truthy_str (stderr result) then stderr result
        else "exit code " +:+ Py.str (returncode result))))
  else
    match json_loads (stdout result) with
    | Decoded v => ret v
    | JSONDecodeError =>
        raise (RuntimeError ("Invalid JSON from sessh: " +:+ stdout result))
    | Uncaught e => raise e
    end.

(** [SesshClient.open(self)]. *)
Definition open : M JSON := _run_sessh "open" [].

(** [SesshClient.run(self, command)]. *)
Definition run (command : string) : M JSON :=
  _run_sessh "run" ["--"; command].

(** [SesshClient.logs(self, lines=300)]; [None] is the call that omits
    the argument. *)
Definition logs (lines : option Z) : M JSON :=
  let lines := default 300 lines in
  _run_sessh "logs" [Py.str lines].

(** [SesshClient.status(self)]. *)
Definition status : M JSON := _run_sessh "status" [].

(** [SesshClient.close(self)]. *)
Definition close : M JSON := _run_sessh "close" [].

(** [SesshClient.attach(self)]: the result of [subprocess.run] is
    dropped and the method falls off its end, returning [None]. *)
Definition attach : M unit :=
  env <- dict_copy Environ ;;
  self_identity <- getattr identity ;;
  if_str self_identity (fun p => dict_setitem env "SESSH_IDENTITY" p) ;;;
  self_proxyjump <- getattr proxyjump ;;
  if_str self_proxyjump (fun p => dict_setitem env "SESSH_PROXYJUMP" p) ;;;
  self_sessh_bin <- getattr sessh_bin ;;
  self_alias <- getattr alias ;;
  self_host <- getattr host ;;
  let sessh_args := [self_sessh_bin; "attach"; self_alias; self_host] in
  self_port <- getattr port ;;
  let sessh_args :=
    match self_port with
    | Some n => if Py.truthy_int (Some n)
                then sessh_args ++ [Py.str n] else sessh_args
    | None => sessh_args
    end in
  subprocess_run sessh_args env false false ;;;
  ret tt.

(** The five methods that answer with a JSON document, as one type, so
    that statements can range over all of them. *)
Inductive json_call :=
  | Open
  | Run (command : string)
  | Logs (lines : option Z)
  | Status
  | Close.

Definition call (c : json_call) : M JSON :=
  match c with
  | Open => open
  | Run command => run command
  | Logs lines => logs lines
  | Status => status
  | Close => close
  end.

End Client.

(** ** A JSON decoder

    An executable instance of the [json.loads] interface, used to run the
    client on concrete child outputs.  It covers the documents the [sessh]
    response schema is made of: objects, arrays, strings with the simple
    backslash escapes, integers, [true], [false] and [null], separated by
    optional white space.  Anything else is a decode error. *)

Module Json.

Inductive value :=
  | Null
  | Bool (b : bool)
  | Num (n : Z)
  | Str (s : string)
  | Arr (items : list value)
  | Obj (members : list (string * value)).

Definition dquote : ascii := "034"%char.
Definition backslash : ascii := "092"%char.

Definition is_ws (c : ascii) : bool :=
  (c =? " ")%char || (c =? "009")%char || (c =? "010")%char
  || (c =? "013")%char.

Definition is_digit (c : ascii) : bool :=
  ((48 <=? nat_of_ascii c) && (nat_of_ascii c <=? 57))%nat.

Definition digit_value (c : ascii) : Z := Z.of_nat (nat_of_ascii c) - 48.

Fixpoint skip_ws (s : list ascii) : list ascii :=
  match s with
  | c :: r => if is_ws c then skip_ws r else s
  | [] => []
  end.

(** [strip p s] removes the literal [p] from the front of [s]. *)
Fixpoint strip (p s : list ascii) : option (list ascii) :=
  match p, s with
  | [], _ => Some s
  | a :: p', b :: s' => if (a =? b)%char then strip p' s' else None
  | _ :: _, [] => None
  end.

(** The digits at the front of [s], folded into [acc]. *)
Fixpoint digits (acc : Z) (s : list ascii) : Z * list ascii :=
  match s with
  | c :: r => if is_digit c then digits (10 * acc + digit_value c) r
              else (acc, s)
  | [] => (acc, [])
  end.

(** An integer without leading zeros: [0], or a nonzero digit followed
    by digits.  A fraction or an exponent is outside the subset. *)
Definition natural (s : list ascii) : option (Z * list ascii) :=
  match s with
  | c :: r =>
      if (c =? "0")%char then
        match r with
        | d :: _ => if is_digit d then None else Some (0, r)
        | [] => Some (0, r)
        end
      else if is_digit c then Some (digits (digit_value c) r)
      else None
  | [] => None
  end.

Definition no_fraction (r : list ascii) : bool :=
  match r with
  | c :: _ => negb ((c =? ".")%char || (c =? "e")%char || (c =? "E")%char)
  | [] => true
  end.

Definition number (s : list ascii) : option (Z * list ascii) :=
  '(n, r) ← match s with
            | c :: r =>
                if (c =? "-")%char
                then '(n, r') ← natural r; Some (- n, r')
                else natural s
            | [] => None
            end;
  if no_fraction r then Some (n, r) else None.

Definition unescape (c : ascii) : option ascii :=
  if (c =? dquote)%char then Some dquote
  else if (c =? backslash)%char then Some backslash
  else if (c =? "/")%char then Some "/"%char
  else if (c =? "n")%char then Some "010"%char
  else if (c =? "t")%char then Some "009"%char
  else if (c =? "r")%char then Some "013"%char
  else if (c =? "b")%char then Some "008"%char
  else if (c =? "f")%char then Some "012"%char
  else None.

(** The characters after an opening quote, up to the closing one.
    Control characters must be escaped. *)
Fixpoint string_body (s : list ascii) : option (string * list ascii) :=
  match s with
  | [] => None
  | c :: r =>
      if (c =? dquote)%char then Some (EmptyString, r)
      else if (c =? backslash)%char then
        match r with
        | e :: r' =>
            c' ← unescape e;
            '(str, rest) ← string_body r';
            Some (String c' str, rest)
        | [] => None
        end
      else if (nat_of_ascii c <? 32)%nat then None
      else '(str, rest) ← string_body r; Some (String c str, rest)
  end.

Definition literal (s : list ascii) : option (value * list ascii) :=
  match strip (list_ascii_of_string "null") s with
  | Some r => Some (Null, r)
  | None =>
  match strip (list_ascii_of_string "true") s with
  | Some r => Some (Bool true, r)
  | None =>
  match strip (list_ascii_of_string "false") s with
  | Some r => Some (Bool false, r)
  | None => '(n, r) ← number s; Some (Num n, r)
  end end end.

Fixpoint parse_value (fuel : nat) (s : list ascii)
    : option (value * list ascii) :=
  match fuel with
  | O => None
  | S fuel =>
      match skip_ws s with
      | [] => None
      | c :: r =>
          if (c =? dquote)%char then
            '(str, rest) ← string_body r; Some (Str str, rest)
          else if (c =? "[")%char then
            match strip [ "]"%char ] (skip_ws r) with
            | Some rest => Some (Arr [], rest)
            | None => '(vs, rest) ← parse_items fuel r; Some (Arr vs, rest)
            end
          else if (c =? "{")%char then
            match strip [ "}"%char ] (skip_ws r) with
            | Some rest => Some (Obj [], rest)
            | None => '(ms, rest) ← parse_members fuel r; Some (Obj ms, rest)
            end
          else literal (c :: r)
      end
  end
with parse_items (fuel : nat) (s : list ascii)
    : option (list value * list ascii) :=
  match fuel with
  | O => None
  | S fuel =>
      '(v, r) ← parse_value fuel s;
      match skip_ws r with
      | c :: r' =>
          if (c =? ",")%char then
            '(vs, rest) ← parse_items fuel r'; Some (v :: vs, rest)
          else if (c =? "]")%char then Some ([v], r')
          else None
      | [] => None
      end
  end
with parse_members (fuel : nat) (s : list ascii)
    : option (list (string * value) * list ascii) :=
  match fuel with
  | O => None
  | S fuel =>
      r0 ← strip [dquote] (skip_ws s);
      '(k, r1) ← string_body r0;
      r2 ← strip [ ":"%char ] (skip_ws r1);
      '(v, r3) ← parse_value fuel r2;
      match skip_ws r3 with
      | c :: r' =>
          if (c =? ",")%char then
            '(ms, rest) ← parse_members fuel r'; Some ((k, v) :: ms, rest)
          else if (c =? "}")%char then Some ([(k, v)], r')
          else None
      | [] => None
      end
  end.

(** [json.loads(s)]: one value, optionally surrounded by white space,
    and nothing after it. *)
Definition loads (s : string) : option value :=
  let cs := list_ascii_of_string s in
  '(v, rest) ← parse_value (2 * length cs + 2) cs;
  match skip_ws rest with
  | [] => Some v
  | _ :: _ => None
  end.

(** The decoder as an instance of the interface of the client: what it
    does not accept is a [json.JSONDecodeError]. *)
Definition decode (s : string) : decoded value :=
  match loads s with
  | Some v => Decoded v
  | None => JSONDecodeError
  end.

(** Documents are written with apostrophes in place of the double quotes
    they contain. *)
Fixpoint doc (s : string) : string :=
  match s with
  | EmptyString => EmptyString
  | String c r => String (if (c =? "'")%char then dquote else c) (doc r)
  end.

End Json.

(** ** The completion protocol of the engine

    [SesshClient.run] only forwards the command to the [sessh] binary; how
    the engine learns that the command has finished is not part of
    [client.py].  The definitions of this module follow the design text of
    the engine (component CompletionProtocol). *)

Module Completion.

(** Modelled from the spec: the expected digit pattern after the marker
    (the engine's marker matcher is not among the source files).  The
    exit status is a non-empty run of decimal digits. *)
Fixpoint all_digits (s : string) : bool :=
  match s with
  | EmptyString => true
  | String c r => Json.is_digit c && all_digits r
  end.

Definition digit_pattern (s : string) : bool :=
  Py.truthy_str s && all_digits s.





(** Modelled from the spec: the composite line sent to the session (the
    engine's command dispatcher is not among the source files): the
    user's command, a shell separator, and an echo of the marker
    concatenated with the exit status of the command. *)
Definition composite_line (command marker : string) : string :=
  command +:+ "; echo " +:+ marker +:+ "$?".

Inductive outcome :=
  | Completed (polls : nat) (output : list string) (exit_code : Z)
  | CommandTimeout.


End Completion.

(** ** The example script [examples/local.py]

    The script reads its command line and the environment, prints its
    progress, creates one client and drives it through a session inside
    [try ... finally].  A process running the script has, besides the
    interpreter state of the client, the vector [sys.argv] and the lines
    printed so far.  The state has one receiver; the only client the
    script creates is stored there. *)

Record Process := mkProcess {
  interp : State;
  sys_argv : list string;
  printed : list string;
}.

Definition set_interp (st : State) (p : Process) : Process :=
  {| interp := st; sys_argv := sys_argv p; printed := printed p |}.

Definition set_printed (lines : list string) (p : Process) : Process :=
  {| interp := interp p; sys_argv := sys_argv p; printed := lines |}.

Definition set_self (c : SesshClient) (st : State) : State :=
  {| self := c; os_environ := os_environ st; dicts := dicts st;
     spawned := spawned st |}.

(** Exceptions that can leave the script: whatever a client method
    raised, and the [AttributeError] of calling [.get] on a reply that is
    not a [dict]. *)
Inductive script_exn :=
  | Raised (e : exn)
  | AttributeError (msg : string).

Inductive outcome (A : Type) :=
  | Done (a : A)
  | Failed (e : script_exn).
Arguments Done {A} a.
Arguments Failed {A} e.

Definition Script (A : Type) : Type := Process -> outcome A * Process.

Definition sret {A} (a : A) : Script A := fun p => (Done a, p).

Definition sbind {A B} (m : Script A) (k : A -> Script B) : Script B :=
  fun p =>
    match m p with
    | (Done a, p') => k a p'
    | (Failed e, p') => (Failed e, p')
    end.

Definition sraise {A} (e : script_exn) : Script A := fun p => (Failed e, p).

Declare Scope script_scope.
Delimit Scope script_scope with script.
Notation "x <- m ;; k" := (sbind m (fun x => k))
  (at level 100, m at next level, right associativity) : script_scope.
Notation "m ;;; k" := (sbind m (fun _ => k))
  (at level 100, right associativity) : script_scope.

(** A method call on the client. *)
Definition lift {A} (m : M A) : Script A :=
  fun p =>
    match m (interp p) with
    | (Return a, st) => (Done a, set_interp st p)
    | (Raise e, st) => (Failed (Raised e), set_interp st p)
    end.

(** [print(line)]; [print()] prints the empty line. *)
Definition print (line : string) : Script unit :=
  fun p => (Done tt, set_printed (printed p ++ [line]) p).

(** [os.environ.get(key, fallback)]. *)
Definition environ_get (key fallback : string) : Script string :=
  fun p => (Done (default fallback (os_environ (interp p) !! key)), p).

(** [client = SesshClient(...)]. *)
Definition new_client (c : SesshClient) : Script unit :=
  fun p => (Done tt, set_interp (set_self c (interp p)) p).

(** [try: body finally: final].  The final block runs however the body
    ended; an exception it raises replaces the outcome of the body. *)
Definition try_finally {A} (body : Script A) (final : Script unit)
    : Script A :=
  fun p =>
    match body p with
    | (r, p') =>
        match final p' with
        | (Done _, p'') => (r, p'')
        | (Failed e, p'') => (Failed e, p'')
        end
    end.

Section LocalExample.

Variable JSON : Type.
Variable json_loads : string -> decoded JSON.
Variable spawn_child :
  list SpawnRequest -> SpawnRequest -> result CompletedProcess.

(** What Python does with a decoded document: [as_dict v] is the mapping
    when [v] is a [dict]; [type_name v] is the name of its type;
    [to_str v] is [str(v)]. *)
Variable as_dict : JSON -> option (gmap string JSON).
Variable type_name : JSON -> string.
Variable to_str : JSON -> string.

(** [v.get(key)] on a reply: only a [dict] has the method. *)
Definition reply_get (v : JSON) (key : string) : Script (option JSON) :=
  match as_dict v with
  | Some d => sret (d !! key)
  | None =>
      sraise (AttributeError
                ("'" +:+ type_name v +:+ "' object has no attribute 'get'"))
  end.

(** [str(x)] where [x] is the result of [v.get(key)]. *)
Definition str_of_get (x : option JSON) : string :=
  match x with
  | Some v => to_str v
  | None => "None"
  end.

Local Open Scope script_scope.

(** The [try] block of [main()] in [examples/local.py]. *)
Definition main_try : Script unit :=
  print "Opening sessh session..." ;;;
  lift (open JSON json_loads spawn_child) ;;;
  print "Running commands..." ;;;
  lift (run JSON json_loads spawn_child "echo 'Hello from sessh!'") ;;;
  lift (run JSON json_loads spawn_child "pwd") ;;;
  lift (run JSON json_loads spawn_child "whoami") ;;;
  lift (run JSON json_loads spawn_child
          "cd /tmp && pwd && echo 'State persisted!'") ;;;
  print EmptyString ;;;
  print "=== Session Logs ===" ;;;
  logs_reply <- lift (logs JSON json_loads spawn_child (Some 50)) ;;
  output <- reply_get logs_reply "output" ;;
  print (match output with
         | Some v => to_str v
         | None => EmptyString
         end) ;;;
  print EmptyString ;;;
  print "=== Session Status ===" ;;;
  status_reply <- lift (status JSON json_loads spawn_child) ;;
  master <- reply_get status_reply "master" ;;
  session <- reply_get status_reply "session" ;;
  print ("Master: " +:+ str_of_get master +:+ ", Session: "
         +:+ str_of_get session) ;;;
  print EmptyString ;;;
  print "Example completed successfully!".

(** Its [finally] block. *)
Definition main_finally : Script unit :=
  lift (close JSON json_loads spawn_child) ;;; sret tt.

(** [main()] of [examples/local.py]. *)
Definition main : Script unit :=
  fun p =>
  (let host :=
     match sys_argv p with
     | _ :: h :: _ => h
     | _ => "localhost"
     end in
   user_fallback <- environ_get "USERNAME" "user" ;;
   user <- environ_get "USER" user_fallback ;;
   let alias := "local-test" in
   print "=== Local Sessh Example ===" ;;;
   print ("Host: " +:+ user +:+ "@" +:+ host) ;;;
   print EmptyString ;;;
   new_client (__init__ alias (user +:+ "@" +:+ host) None None None None) ;;;
   try_finally main_try main_finally) p.

End LocalExample.

(** * Vocabulary of the statements *)

(** The children spawned by running [m] from [st], oldest first. *)
Definition spawned_by {A} (m : M A) (st : State) : list SpawnRequest :=
  drop (length (spawned st)) (spawned (m st).2).

(** [keeps f Q m]: running [m] leaves the component [f] of the state as it
    was, whether [m] returns or raises, and every value [m] returns
    satisfies [Q]. *)
Definition keeps {X A} (f : State -> X) (Q : A -> Prop) (m : M A) : Prop :=
  forall st, f (m st).2 = f st /\ forall a, (m st).1 = Return a -> Q a.

(** References to dictionaries other than [os.environ]. *)
Definition is_copy (r : dict_ref) : Prop :=
  match r with
  | Dict _ => True
  | Environ => False
  end.

(** Closed forms of what a call hands to [subprocess.run]. *)

Definition set_if (k : string) (v : option string) (e : Env) : Env :=
  match v with
  | Some s => if Py.truthy_str s then <[k := s]> e else e
  | None => e
  end.

Definition port_argv (p : option Z) : list string :=
  match p with
  | Some n => if n =? 0 then [] else [Py.str n]
  | None => []
  end.

Definition attach_env (c : SesshClient) (e : Env) : Env :=
  set_if "SESSH_PROXYJUMP" (proxyjump c)
    (set_if "SESSH_IDENTITY" (identity c) e).

Definition json_env (c : SesshClient) (e : Env) : Env :=
  attach_env c (<["SESSH_JSON" := "1"]> e).

Definition json_request (cmd : string) (args : list string) (st : State)
    : SpawnRequest :=
  let c := self st in
  {| argv := sessh_bin c :: cmd :: alias c :: host c
             :: port_argv (port c) ++ args;
     child_env := json_env c (os_environ st);
     capture_output := true;
     text := true |}.

Definition attach_request (st : State) : SpawnRequest :=
  let c := self st in
  {| argv := sessh_bin c :: "attach" :: alias c :: host c
             :: port_argv (port c);
     child_env := attach_env c (os_environ st);
     capture_output := false;
     text := false |}.

(** The state after a call that allocated the dictionary [req] was built
    from and spawned [req]. *)
Definition after (req : SpawnRequest) (st : State) : State :=
  {| self := self st;
     os_environ := os_environ st;
     dicts := dicts st ++ [child_env req];
     spawned := spawned st ++ [req] |}.

(** The state in which the copy allocated by the running call holds the
    items [e]. *)
Definition with_copy (e : Env) (st : State) : State :=
  set_dicts (dicts st ++ [e]) st.

(** The reference to that copy. *)
Definition the_copy (st : State) : dict_ref := Dict (length (dicts st)).

(** The six public methods as one type.  [attach] answers [None]; the
    other methods answer the decoded document. *)
Inductive method :=
  | Json (c : json_call)
  | Attach.

Definition invoke (JSON : Type) (json_loads : string -> decoded JSON)
    (spawn_child : list SpawnRequest -> SpawnRequest
                   -> result CompletedProcess)
    (m : method) : M (option JSON) :=
  match m with
  | Json c => v <- call JSON json_loads spawn_child c ;; ret (Some v)
  | Attach => attach spawn_child ;;; ret None
  end.

(** The operation word and the operation-specific arguments each
    JSON-mode method passes to [_run_sessh]. *)
Definition op_name (c : json_call) : string :=
  match c with
  | Open => "open"
  | Run _ => "run"
  | Logs _ => "logs"
  | Status => "status"
  | Close => "close"
  end.

Definition op_args (c : json_call) : list string :=
  match c with
  | Run command => ["--"; command]
  | Logs lines => [Py.str (default 300 lines)]
  | Open | Status | Close => []
  end.



Definition method_request (m : method) (st : State) : SpawnRequest :=
  match m with
  | Json c => json_request (op_name c) (op_args c) st
  | Attach => attach_request st
  end.

(** ** Sample clients, interpreter states and children *)

(** A state in which no dictionary has been copied and no child spawned
    yet. *)
Definition fresh_state (c : SesshClient) (e : Env) : State :=
  {| self := c; os_environ := e; dicts := []; spawned := [] |}.

(** A world in which every child that is started exits as [cp] did, like
    the [MagicMock] return value in [tests/test_client.py]. *)
Definition always (cp : CompletedProcess)
    : list SpawnRequest -> SpawnRequest -> result CompletedProcess :=
  fun _ _ => Return cp.

(** [SesshClient("test", "user@example.com")], the client of the unit
    tests. *)
Definition test_client : SesshClient :=
  __init__ "test" "user@example.com" None None None None.

(** A client with every optional argument given. *)
Definition full_client : SesshClient :=
  __init__ "gpu" "ubuntu@10.0.0.7" (Some 2222) (Some "/opt/sessh/sessh")
    (Some "/home/ops/.ssh/id_ed25519") (Some "ops@bastion").

(** A client whose identity and proxy jump were given as empty strings,
    as happens when they are read from unset configuration with an empty
    default. *)
Definition blank_client : SesshClient :=
  __init__ "test" "user@example.com" None None (Some EmptyString)
    (Some EmptyString).

Definition login_env : Env :=
  {[ "HOME" := "/home/ops"; "PATH" := "/usr/bin:/bin" ]}.

(** A child that fails before it can answer: nothing on standard output,
    a diagnostic on standard error. *)
Definition refused : CompletedProcess :=
  {| returncode := 255;
     stdout := EmptyString;
     stderr := "ssh: connect to host 10.0.0.7 port 2222: Connection refused" |}.

(** A child that fails with text that is not JSON on standard output. *)
Definition garbled : CompletedProcess :=
  {| returncode := 127;
     stdout := "tmux: command not found";
     stderr := "sessh: remote session could not be created" |}.

(** A child that reports a failed command as a structured result. *)
Definition failed_run : CompletedProcess :=
  {| returncode := 1;
     stdout := Json.doc "{'ok':false,'op':'run','exit_code':127}";
     stderr := "bash: frobnicate: command not found" |}.

(** The document [failed_run] carries. *)
Definition failed_run_document : Json.value :=
  Json.Obj [("ok", Json.Bool false); ("op", Json.Str "run");
            ("exit_code", Json.Num 127)].

(** The environment of a caller who has exported the variables the
    [sessh] CLI reads. *)
Definition exported_env : Env :=
  {[ "SESSH_JSON" := "1";
     "SESSH_IDENTITY" := "/home/ops/.ssh/id_rsa";
     "SESSH_PROXYJUMP" := "jump@gateway" ]}.

(** A child that exits normally without output. *)
Definition detached : CompletedProcess :=
  {| returncode := 0; stdout := EmptyString; stderr := EmptyString |}.

(** The completion marker line in the words of the design text: the
    marker at the start of its own line, immediately followed by the
    expected digit pattern, a non-empty run of decimal digits, and by
    nothing else. *)
Definition decimal_digit (c : ascii) : Prop :=
  (48 <= nat_of_ascii c <= 57)%nat.

Definition digit_run (s : string) : Prop :=
  s <> EmptyString /\ Forall decimal_digit (list_ascii_of_string s).

Definition exact_marker_line (marker line : string) : Prop :=
  exists digits, digit_run digits /\ line = marker +:+ digits.

(** A session in which a command that echoes marker-like text has been
    dispatched: the marker of this command, the command, the line the
    terminal shows for what was typed, the lines the command prints (the
    bare marker; the marker and a digit after a space; the marker and a
    digit followed by a letter; the marker and a digit in the middle of
    a line), and what the scroll-back holds at the first, the second and
    every later poll. *)
Definition sample_marker : string := "__SESSH_DONE_17__".

Definition sample_command : string :=
  "echo __SESSH_DONE_17__; echo ' __SESSH_DONE_17__0'; "
  +:+ "echo __SESSH_DONE_17__0x; echo see __SESSH_DONE_17__0 above".

Definition typed_line : string :=
  "$ " +:+ Completion.composite_line sample_command sample_marker.



(** The replies the unit tests of the repository feed to the client. *)
Definition test_reply (document : string) : CompletedProcess :=
  {| returncode := 0; stdout := Json.doc document; stderr := EmptyString |}.

(** [d[key]] on a decoded document; when a key is repeated the last
    member wins, as in the [dict] that [json.loads] builds. *)
Fixpoint member (key : string) (members : list (string * Json.value))
    : option Json.value :=
  match members with
  | [] => None
  | (k, v) :: rest =>
      match member key rest with
      | Some v' => Some v'
      | None => if String.eqb k key then Some v else None
      end
  end.

Definition getitem (key : string) (r : result Json.value)
    : option Json.value :=
  match r with
  | Return (Json.Obj members) => member key members
  | _ => None
  end.

(** The states a client can be in after any number of method calls,
    whatever each call answered. *)
Inductive reachable (JSON : Type) (json_loads : string -> decoded JSON)
    (spawn_child : list SpawnRequest -> SpawnRequest
                   -> result CompletedProcess)
    (st : State) : State -> Prop :=
  | reachable_start : reachable JSON json_loads spawn_child st st
  | reachable_call (st' : State) (m : method) :
      reachable JSON json_loads spawn_child st st' ->
      reachable JSON json_loads spawn_child st
        (invoke JSON json_loads spawn_child m st').2.

(** A child that answers [open] with the reply of the unit tests. *)
Definition opened : CompletedProcess :=
  test_reply "{'ok':true,'op':'open'}".

(** A child that fails without any output at all. *)
Definition silent_failure : CompletedProcess :=
  {| returncode := 3; stdout := EmptyString; stderr := EmptyString |}.

(** A world without the binary: [subprocess.run] raises. *)
Definition not_installed
    : list SpawnRequest -> SpawnRequest -> result CompletedProcess :=
  fun _ _ => Raise (OSError "No such file or directory: 'sessh'").

(** ** Vocabulary for the example script *)

(** The children spawned and the lines printed by running [m] from [p],
    oldest first. *)
Definition spawned_in {A} (m : Script A) (p : Process) : list SpawnRequest :=
  drop (length (spawned (interp p))) (spawned (interp (m p).2)).

Definition printed_in {A} (m : Script A) (p : Process) : list string :=
  drop (length (printed p)) (printed (m p).2).

(** The operation word of a request. *)
Definition operation (req : SpawnRequest) : option string :=
  argv req !! 1%nat.

(** The target the script addresses, and the interpreter state in which
    its [try] block starts. *)
Definition example_target (p : Process) : string :=
  let env := os_environ (interp p) in
  default (default "user" (env !! "USERNAME")) (env !! "USER")
  +:+ "@" +:+ default "localhost" (sys_argv p !! 1%nat).

Definition session_start (p : Process) : State :=
  set_self (__init__ "local-test" (example_target p) None None None None)
    (interp p).

(** [session st0 p]: the process [p] is inside a session that started in
    the interpreter state [st0]: same client, same environment, and since
    then only children other than [close] have been spawned. *)
Definition session (st0 : State) (p : Process) : Prop :=
  self (interp p) = self st0
  /\ os_environ (interp p) = os_environ st0
  /\ exists body,
       spawned (interp p) = spawned st0 ++ body
       /\ Forall (fun req => operation req <> Some "close") body.

(** [sinv I m]: running [m] keeps the invariant [I], whether [m] returns
    or raises. *)
Definition sinv {A} (I : Process -> Prop) (m : Script A) : Prop :=
  forall p, I p -> I (m p).2.

(** Python's view of the documents of the sample decoder: the mapping of
    an object (the last of repeated keys wins), the type names, and
    [str] on the scalars of the response schema.  No sample holds a
    container under a key the script prints. *)
Definition sample_as_dict (v : Json.value)
    : option (gmap string Json.value) :=
  match v with
  | Json.Obj members => Some (list_to_map (reverse members))
  | _ => None
  end.

Definition sample_type_name (v : Json.value) : string :=
  match v with
  | Json.Null => "NoneType"
  | Json.Bool _ => "bool"
  | Json.Num _ => "int"
  | Json.Str _ => "str"
  | Json.Arr _ => "list"
  | Json.Obj _ => "dict"
  end.

Definition sample_str (v : Json.value) : string :=
  match v with
  | Json.Null => "None"
  | Json.Bool true => "True"
  | Json.Bool false => "False"
  | Json.Num n => Py.str n
  | Json.Str s => s
  | Json.Arr _ => "[...]"
  | Json.Obj _ => "{...}"
  end.

(** A reply that answers every method of the script. *)
Definition healthy : CompletedProcess :=
  test_reply "{'ok':true,'output':'/tmp','master':1,'session':1}".

(** A process started as [local.py staging] by the user [ops]. *)
Definition sample_process : Process :=
  {| interp := fresh_state test_client {[ "USER" := "ops" ]};
     sys_argv := ["local.py"; "staging"];
     printed := [] |}.

(** The process in which the [try] block of the script starts: the
    header has been printed and the client created. *)
Definition session_process (p : Process) : Process :=
  set_interp (session_start p)
    (set_printed
       (printed p ++ ["=== Local Sessh Example ===";
                      "Host: " +:+ example_target p;
                      EmptyString]) p).

(** Children that answer with an empty object and with a list. *)
Definition empty_object : CompletedProcess := test_reply "{}".
Definition empty_list : CompletedProcess := test_reply "[]".

(** The sample decoder under the integer digit limit of the interpreter:
    on a document that is one integer of more than [limit] digits
    [json.loads] raises [ValueError], which is not a
    [json.JSONDecodeError]. *)
Definition digit_limit_message (limit digits : nat) : string :=
  "Exceeds the limit (" +:+ Py.str (Z.of_nat limit)
  +:+ " digits) for integer string conversion: value has "
  +:+ Py.str (Z.of_nat digits)
  +:+ " digits; use sys.set_int_max_str_digits() to increase the limit".

Definition decode_with_digit_limit (limit : nat) (s : string)
    : decoded Json.value :=
  if Completion.digit_pattern s && (limit <? String.length s)%nat
  then Uncaught (ValueError (digit_limit_message limit (String.length s)))
  else Json.decode s.

(** A child that exits normally after printing an integer of 4301
    digits. *)
Definition huge_integer : CompletedProcess :=
  {| returncode := 0;
     stdout := string_of_list_ascii (repeat "1"%char 4301);
     stderr := EmptyString |}.

(** * Properties *)

(** ** Facts about the Python primitives *)

Lemma prefix_append (p s : string) : String.prefix p (p +:+ s) = true.
Proof.
  induction p as [|c p IH]; simpl.
  - by destruct s.
  - destruct (ascii_dec c c); [exact IH | done].
Qed.

Lemma prefix_split (p s : string) :
  String.prefix p s = true -> exists r, s = p +:+ r.
Proof.
  revert s. induction p as [|c p IH]; intros s H.
  - by exists s.
  - destruct s as [|d s]; simpl in H; [done|].
    destruct (ascii_dec c d) as [->|]; [|done].
    destruct (IH s H) as [r ->]. by exists r.
Qed.

Lemma contains_empty (s : string) : Py.contains EmptyString s = true.
Proof. by destruct s. Qed.

Lemma contains_of_prefix (sub s : string) :
  String.prefix sub s = true -> Py.contains sub s = true.
Proof. intros H. destruct s; cbn [Py.contains]; by rewrite H. Qed.

Lemma contains_prefix (sub s : string) :
  Py.contains sub (sub +:+ s) = true.
Proof. apply contains_of_prefix, prefix_append. Qed.

Lemma contains_append (a sub b : string) :
  Py.contains sub (a +:+ sub +:+ b) = true.
Proof.
  induction a as [|c a IH].
  - change (EmptyString +:+ sub +:+ b) with (sub +:+ b).
    apply contains_prefix.
  - change (String c a +:+ sub +:+ b) with (String c (a +:+ sub +:+ b)).
    cbn [Py.contains]. rewrite IH. apply orb_true_r.
Qed.

Lemma append_nil_r (s : string) : s +:+ EmptyString = s.
Proof.
  induction s as [|c s IH]; [done|].
  change (String c s +:+ EmptyString) with (String c (s +:+ EmptyString)).
  by rewrite IH.
Qed.

Lemma contains_suffix (a sub : string) : Py.contains sub (a +:+ sub) = true.
Proof.
  rewrite <- (append_nil_r sub) at 2. apply contains_append.
Qed.

Lemma contains_skip (a sub s : string) :
  Py.contains sub s = true -> Py.contains sub (a +:+ s) = true.
Proof.
  intros H. induction a as [|c a IH]; [done|].
  change (String c a +:+ s) with (String c (a +:+ s)).
  cbn [Py.contains]. rewrite IH. apply orb_true_r.
Qed.

(** [sub in s] holds only when [sub] occurs in [s]. *)
Lemma contains_occurs (sub s : string) :
  Py.contains sub s = true -> exists a b, s = a +:+ sub +:+ b.
Proof.
  induction s as [|c s IH]; cbn [Py.contains]; intros H.
  - rewrite orb_false_r in H. destruct (prefix_split _ _ H) as [r Hr].
    by exists EmptyString, r.
  - apply orb_true_iff in H as [H|H].
    + destruct (prefix_split _ _ H) as [r Hr]. by exists EmptyString, r.
    + destruct (IH H) as (a & b & ->). by exists (String c a), b.
Qed.

Lemma contains_spec (sub s : string) :
  Py.contains sub s = true <-> exists a b, s = a +:+ sub +:+ b.
Proof.
  split; [apply contains_occurs|].
  intros (a & b & ->). apply contains_append.
Qed.

(** [str] renders an integer in a way that reads back as the same
    integer. *)
Lemma int_str (n : Z) : Py.int (Py.str n) = Some n.
Proof.
  unfold Py.int, Py.str. rewrite NilZero.isi.
  - simpl. by rewrite DecimalZ.of_to.
  - destruct n; simpl; try done.
    intros [= H]. by apply DecimalPos.Unsigned.to_uint_nonnil in H.
  - destruct n; simpl; try done.
    intros [= H]. by apply DecimalPos.Unsigned.to_uint_nonnil in H.
Qed.

Lemma str_inj (n m : Z) : Py.str n = Py.str m -> n = m.
Proof.
  intros H. assert (E : Py.int (Py.str n) = Py.int (Py.str m)) by by rewrite H.
  rewrite !int_str in E. by injection E.
Qed.

(** ** Dictionaries allocated by a call *)

Lemma lookup_fresh {A} (l : list A) (x : A) :
  (l ++ [x]) !! length l = Some x.
Proof. by rewrite list_lookup_middle. Qed.

Lemma alter_fresh {A} (f : A -> A) (l : list A) (x : A) :
  alter f (length l) (l ++ [x]) = l ++ [f x].
Proof.
  replace (length l) with (length l + 0)%nat at 1 by lia.
  by rewrite alter_app_r.
Qed.

(** ** Running a method symbolically *)

Section Exec.

Variable JSON : Type.
Variable json_loads : string -> decoded JSON.
Variable spawn_child :
  list SpawnRequest -> SpawnRequest -> result CompletedProcess.

Lemma dict_copy_exec (st : State) :
  dict_copy Environ st = (Return (the_copy st), with_copy (os_environ st) st).
Proof. reflexivity. Qed.

Lemma dict_setitem_exec (k v : string) (e : Env) (st : State) :
  dict_setitem (the_copy st) k v (with_copy e st)
  = (Return tt, with_copy (<[k := v]> e) st).
Proof.
  unfold dict_setitem, the_copy, with_copy, set_dicts; simpl.
  by rewrite alter_fresh.
Qed.

Lemma if_str_exec (k : string) (x : option string) (e : Env) (st : State) :
  if_str x (fun p => dict_setitem (the_copy st) k p) (with_copy e st)
  = (Return tt, with_copy (set_if k x e) st).
Proof.
  destruct x as [[|c s]|]; simpl; try reflexivity.
  apply dict_setitem_exec.
Qed.

Lemma subprocess_run_exec (args : list string) (capture txt : bool)
    (e : Env) (st : State) :
  let req := {| argv := args; child_env := e;
                capture_output := capture; text := txt |} in
  subprocess_run spawn_child args (the_copy st) capture txt (with_copy e st)
  = (spawn_child (spawned st) req, after req st).
Proof.
  unfold subprocess_run, the_copy, with_copy, after, set_spawned; simpl.
  by rewrite lookup_fresh.
Qed.

Lemma port_argv_exec (p : option Z) (base : list string) :
  match p with
  | Some n => if Py.truthy_int (Some n) then base ++ [Py.str n] else base
  | None => base
  end = base ++ port_argv p.
Proof.
  destruct p as [n|]; simpl; [|by rewrite app_nil_r].
  destruct (n =? 0); simpl; by rewrite ?app_nil_r.
Qed.

(** [_run_sessh] copies [os.environ], spawns one child with the request
    [json_request], and answers from what the child did. *)
Lemma run_sessh_exec (cmd : string) (args : list string) (st : State) :
  _run_sessh JSON json_loads spawn_child cmd args st
  = (match spawn_child (spawned st) (json_request cmd args st) with
     | Return result =>
         if negb (returncode result =? 0)
            && negb (Py.truthy_str (stdout result))
         then Raise (RuntimeError
                ("sessh " +:+ cmd +:+ " failed: " +:+
                 (if Py.truthy_str (stderr result) then stderr result
                  else "exit code " +:+ Py.str (returncode result))))
         else match json_loads (stdout result) with
              | Decoded v => Return v
              | JSONDecodeError =>
                  Raise (RuntimeError
                           ("Invalid JSON from sessh: " +:+ stdout result))
              | Uncaught e => Raise e
              end
     | Raise e => Raise e
     end,
     after (json_request cmd args st) st).
Proof.
  unfold _run_sessh, bind at 1. rewrite dict_copy_exec.
  unfold bind at 1. rewrite dict_setitem_exec.
  unfold bind at 1, getattr at 1. unfold bind at 1. rewrite if_str_exec.
  unfold bind at 1, getattr at 1. unfold bind at 1. rewrite if_str_exec.
  unfold bind at 1, getattr at 1. unfold bind at 1, getattr at 1.
  unfold bind at 1, getattr at 1. unfold bind at 1, getattr at 1.
  cbn [self with_copy set_dicts].
  rewrite port_argv_exec.
  unfold bind at 1.
  rewrite (subprocess_run_exec _ true true).
  unfold json_request, json_env, attach_env. cbn [app].
  destruct (spawn_child _ _) as [result|e]; [|reflexivity].
  destruct (negb _ && negb _); [reflexivity|].
  destruct (json_loads _); reflexivity.
Qed.

(** [attach] copies [os.environ], spawns one child with the request
    [attach_request], and returns [None] once the child has exited. *)
Lemma attach_exec (st : State) :
  attach spawn_child st
  = (match spawn_child (spawned st) (attach_request st) with
     | Return _ => Return tt
     | Raise e => Raise e
     end,
     after (attach_request st) st).
Proof.
  unfold attach, bind at 1. rewrite dict_copy_exec.
  unfold bind at 1, getattr at 1. unfold bind at 1. rewrite if_str_exec.
  unfold bind at 1, getattr at 1. unfold bind at 1. rewrite if_str_exec.
  unfold bind at 1, getattr at 1. unfold bind at 1, getattr at 1.
  unfold bind at 1, getattr at 1. unfold bind at 1, getattr at 1.
  cbn [self with_copy set_dicts].
  rewrite port_argv_exec.
  unfold bind at 1.
  rewrite (subprocess_run_exec _ false false).
  unfold attach_request, attach_env. cbn [app].
  destruct (spawn_child _ _) as [result|e]; reflexivity.
Qed.

End Exec.

(** ** What a call leaves unchanged *)

Create HintDb frame.

Section Frame.

Context {X : Type} (f : State -> X).
Hypothesis f_dicts : forall ds st, f (set_dicts ds st) = f st.
Hypothesis f_spawned : forall rs st, f (set_spawned rs st) = f st.

Lemma keeps_ret {A} (Q : A -> Prop) (a : A) : Q a -> keeps f Q (ret a).
Proof. intros H st. split; [done|]. by intros ? [= <-]. Qed.

Lemma keeps_raise {A} (Q : A -> Prop) (e : exn) : keeps f Q (raise e).
Proof. intros st. split; [done|]. by intros ? [=]. Qed.

Lemma keeps_bind {A B} (Q : A -> Prop) (R : B -> Prop)
    (m : M A) (k : A -> M B) :
  keeps f Q m -> (forall a, Q a -> keeps f R (k a)) -> keeps f R (bind m k).
Proof.
  intros Hm Hk st. unfold bind.
  destruct (Hm st) as [Hf Hq]. destruct (m st) as [[a|e] st']; simpl in *.
  - destruct (Hk a (Hq a eq_refl) st') as [Hf' Hr].
    split; [congruence | exact Hr].
  - split; [done|]. by intros ? [=].
Qed.

Lemma keeps_weaken {A} (Q R : A -> Prop) (m : M A) :
  (forall a, Q a -> R a) -> keeps f Q m -> keeps f R m.
Proof. intros HQR Hm st. destruct (Hm st). split; eauto. Qed.

Lemma keeps_getattr {A} (g : SesshClient -> A) :
  keeps f (fun _ => True) (getattr g).
Proof. intros st. by split. Qed.

Lemma keeps_dict_copy (r : dict_ref) : keeps f is_copy (dict_copy r).
Proof.
  intros st. split; [apply f_dicts|]. by intros ? [= <-].
Qed.

(** An item assignment through a reference to a copy cannot reach what
    [f] reads. *)
Lemma keeps_dict_setitem (r : dict_ref) (k v : string) :
  is_copy r -> keeps f (fun _ => True) (dict_setitem r k v).
Proof.
  intros Hr st. destruct r as [|i]; [done|]. split; [apply f_dicts|done].
Qed.

Lemma keeps_when (b : bool) (body : M unit) :
  keeps f (fun _ => True) body -> keeps f (fun _ => True) (when b body).
Proof. destruct b; [done|]. intros _. by apply keeps_ret. Qed.

Lemma keeps_if_str (x : option string) (body : string -> M unit) :
  (forall s, keeps f (fun _ => True) (body s)) ->
  keeps f (fun _ => True) (if_str x body).
Proof.
  intros H. destruct x as [s|]; simpl.
  - by apply keeps_when.
  - by apply keeps_ret.
Qed.

Variable JSON : Type.
Variable json_loads : string -> decoded JSON.
Variable spawn_child :
  list SpawnRequest -> SpawnRequest -> result CompletedProcess.

Lemma keeps_subprocess_run (args : list string) (env : dict_ref)
    (capture txt : bool) :
  keeps f (fun _ => True) (subprocess_run spawn_child args env capture txt).
Proof. intros st. split; [apply f_spawned|done]. Qed.

#[local] Hint Resolve keeps_getattr keeps_dict_copy keeps_dict_setitem
  keeps_subprocess_run keeps_raise keeps_if_str keeps_when : frame.

Ltac frame_step :=
  first
    [ eapply keeps_bind; [solve [eauto with frame]|]; intros ? ?
    | apply keeps_raise
    | apply keeps_ret; exact I ].

Lemma keeps_run_sessh (cmd : string) (args : list string) :
  keeps f (fun _ => True)
    (_run_sessh JSON json_loads spawn_child cmd args).
Proof.
  unfold _run_sessh.
  do 11 frame_step.
  destruct (_ && _); [frame_step|].
  destruct (json_loads _); frame_step.
Qed.

Lemma keeps_attach : keeps f (fun _ => True) (attach spawn_child).
Proof. unfold attach. do 11 frame_step. Qed.

Lemma keeps_invoke (m : method) :
  keeps f (fun _ => True) (invoke JSON json_loads spawn_child m).
Proof.
  destruct m as [[]|]; simpl.
  1-5: eapply keeps_bind; [apply keeps_run_sessh|]; intros; frame_step.
  eapply keeps_bind; [apply keeps_attach|]; intros; frame_step.
Qed.

End Frame.

(** ** The child a call spawns *)

Section Spawns.

Variable JSON : Type.
Variable json_loads : string -> decoded JSON.
Variable spawn_child :
  list SpawnRequest -> SpawnRequest -> result CompletedProcess.

Lemma spawned_by_after {A} (m : M A) (st : State) (req : SpawnRequest) :
  (m st).2 = after req st -> spawned_by m st = [req].
Proof.
  intros H. unfold spawned_by. rewrite H. simpl. apply drop_app_length.
Qed.

Lemma spawned_by_call (c : json_call) (st : State) :
  spawned_by (call JSON json_loads spawn_child c) st
  = [json_request (op_name c) (op_args c) st].
Proof.
  apply spawned_by_after.
  destruct c; simpl; unfold open, run, logs, status, close;
    by rewrite run_sessh_exec.
Qed.

Lemma spawned_by_attach (st : State) :
  spawned_by (attach spawn_child) st = [attach_request st].
Proof. apply spawned_by_after. by rewrite attach_exec. Qed.

Lemma call_exec (c : json_call) (st : State) :
  call JSON json_loads spawn_child c st
  = _run_sessh JSON json_loads spawn_child (op_name c) (op_args c) st.
Proof. by destruct c. Qed.

Lemma invoke_state (m : method) (st : State) :
  (invoke JSON json_loads spawn_child m st).2 = after (method_request m st) st.
Proof.
  destruct m as [c|]; unfold invoke, bind.
  - rewrite call_exec, run_sessh_exec.
    destruct (spawn_child _ _) as [cp|]; [|done].
    destruct (_ && _); [done|]. by destruct (json_loads _).
  - rewrite attach_exec. by destruct (spawn_child _ _).
Qed.

Lemma spawned_by_invoke (m : method) (st : State) :
  spawned_by (invoke JSON json_loads spawn_child m) st
  = [method_request m st].
Proof. apply spawned_by_after, invoke_state. Qed.

End Spawns.

(** ** The unit tests of the repository *)

(** [test_open]: the reply is decoded and its ["op"] is ["open"]. *)
Example test_open :
  getitem "op"
    (open Json.value Json.decode (always (test_reply "{'ok':true,'op':'open'}"))
       (fresh_state test_client login_env)).1
  = Some (Json.Str "open").
Proof. vm_compute. reflexivity. Qed.

(** [test_run]: the arguments contain ["--"] and the command. *)
Example test_run :
  argv <$> spawned_by
             (run Json.value Json.decode
                (always (test_reply "{'ok':true,'op':'run'}")) "echo hello")
             (fresh_state test_client login_env)
  = [["sessh"; "run"; "test"; "user@example.com"; "--"; "echo hello"]].
Proof. vm_compute. reflexivity. Qed.

(** [test_logs]: the arguments contain ["100"]. *)
Example test_logs :
  argv <$> spawned_by
             (logs Json.value Json.decode
                (always (test_reply
                   "{'ok':true,'op':'logs','output':'test output'}"))
                (Some 100))
             (fresh_state test_client login_env)
  = [["sessh"; "logs"; "test"; "user@example.com"; "100"]].
Proof. vm_compute. reflexivity. Qed.

(** [test_status]: the reply is decoded and its ["master"] is [1]. *)
Example test_status :
  getitem "master"
    (status Json.value Json.decode
       (always (test_reply "{'ok':true,'op':'status','master':1,'session':1}"))
       (fresh_state test_client login_env)).1
  = Some (Json.Num 1).
Proof. vm_compute. reflexivity. Qed.

(** A zero exit code with an empty standard output is an invalid reply,
    not a hard failure. *)
Example silent_success_is_invalid_json :
  (close Json.value Json.decode (always detached)
     (fresh_state test_client login_env)).1
  = Raise (RuntimeError "Invalid JSON from sessh: ").
Proof. vm_compute. reflexivity. Qed.

(** When the child cannot be started the exception of [subprocess.run]
    leaves the method. *)
Example missing_binary_propagates :
  (attach (fun _ _ => Raise (OSError "No such file or directory: 'sessh'"))
     (fresh_state test_client login_env)).1
  = Raise (OSError "No such file or directory: 'sessh'").
Proof. vm_compute. reflexivity. Qed.

(** ** Errors and structured results *)

(** C1, as stated, fails: a child that exits with a nonzero code after
    writing text that is not JSON on its standard output makes the client
    raise [RuntimeError], but the message quotes the standard output and
    not the standard error. *)
Lemma invalid_json_message_omits_stderr :
  returncode garbled <> 0
  /\ Json.decode (stdout garbled) = JSONDecodeError
  /\ (call Json.value Json.decode (always garbled) Status
        (fresh_state test_client login_env)).1
     = Raise (RuntimeError "Invalid JSON from sessh: tmux: command not found")
  /\ Py.contains (stderr garbled)
       "Invalid JSON from sessh: tmux: command not found" = false.
Proof. repeat split; [discriminate | vm_compute; reflexivity ..]. Qed.

(** C1, amended: for every JSON-mode operation, when the spawned child
    exits with a nonzero code and its standard output is empty or is
    rejected by [json.loads] with [json.JSONDecodeError], the client
    raises [RuntimeError]; the message contains the child's standard
    error when the standard output is empty, and is
    ["Invalid JSON from sessh: "] followed by the standard output when it
    is not.  (An exception of another class that [json.loads] raises is
    not caught; the statement says nothing about that case.) *)
Theorem hard_failure_raises (JSON : Type)
    (json_loads : string -> decoded JSON)
    (spawn_child : list SpawnRequest -> SpawnRequest
                   -> result CompletedProcess)
    (c : json_call) (st : State) (req : SpawnRequest)
    (cp : CompletedProcess) :
  req ∈ spawned_by (call JSON json_loads spawn_child c) st ->
  spawn_child (spawned st) req = Return cp ->
  returncode cp <> 0 ->
  stdout cp = EmptyString \/ json_loads (stdout cp) = JSONDecodeError ->
  exists msg,
    (call JSON json_loads spawn_child c st).1 = Raise (RuntimeError msg)
    /\ (stdout cp = EmptyString -> Py.contains (stderr cp) msg = true)
    /\ (stdout cp <> EmptyString ->
        msg = "Invalid JSON from sessh: " +:+ stdout cp).
Proof.
  intros Hreq Hcp Hcode Hjson.
  rewrite spawned_by_call in Hreq. apply list_elem_of_singleton in Hreq as ->.
  rewrite call_exec, run_sessh_exec, Hcp. cbn [fst].
  apply Z.eqb_neq in Hcode. rewrite Hcode. cbn [negb andb].
  destruct (stdout cp) as [|ch out] eqn:Hout; cbn [Py.truthy_str negb].
  - eexists. split; [reflexivity|]. split; [intros _|done].
    destruct (stderr cp) as [|e err]; cbn [Py.truthy_str].
    + apply contains_empty.
    + do 2 apply contains_skip. apply contains_suffix.
  - destruct Hjson as [Hempty|Hjson]; [done|].
    rewrite Hjson. eexists. split; [reflexivity|]. by split.
Qed.

Lemma hard_failure_raises_witness :
  exists msg,
    (call Json.value Json.decode (always refused) Open
       (fresh_state full_client login_env)).1 = Raise (RuntimeError msg)
    /\ (stdout refused = EmptyString ->
        Py.contains (stderr refused) msg = true)
    /\ (stdout refused <> EmptyString ->
        msg = "Invalid JSON from sessh: " +:+ stdout refused).
Proof.
  apply (hard_failure_raises Json.value Json.decode (always refused) Open
           (fresh_state full_client login_env)
           (json_request "open" [] (fresh_state full_client login_env))
           refused).
  - vm_compute. left.
  - reflexivity.
  - discriminate.
  - left. reflexivity.
Defined.

(** C2: for every JSON-mode operation, when the standard output of the
    spawned child parses as JSON the client returns the parsed document,
    whatever the exit code and whatever the document says.  The only fact
    about [json.loads] this rests on is that the empty string is not a
    JSON document. *)
Theorem parsed_json_is_returned (JSON : Type)
    (json_loads : string -> decoded JSON)
    (spawn_child : list SpawnRequest -> SpawnRequest
                   -> result CompletedProcess)
    (c : json_call) (st : State) (req : SpawnRequest)
    (cp : CompletedProcess) (v : JSON) :
  json_loads EmptyString = JSONDecodeError ->
  req ∈ spawned_by (call JSON json_loads spawn_child c) st ->
  spawn_child (spawned st) req = Return cp ->
  json_loads (stdout cp) = Decoded v ->
  (call JSON json_loads spawn_child c st).1 = Return v.
Proof.
  intros Hempty Hreq Hcp Hjson.
  rewrite spawned_by_call in Hreq. apply list_elem_of_singleton in Hreq as ->.
  rewrite call_exec, run_sessh_exec, Hcp. cbn [fst].
  destruct (stdout cp) as [|ch out] eqn:Hout.
  - congruence.
  - cbn [Py.truthy_str negb]. rewrite andb_false_r. by rewrite Hjson.
Qed.

Lemma parsed_json_is_returned_witness :
  (call Json.value Json.decode (always failed_run) (Run "frobnicate")
     (fresh_state full_client login_env)).1 = Return failed_run_document.
Proof.
  apply (parsed_json_is_returned Json.value Json.decode (always failed_run)
           (Run "frobnicate") (fresh_state full_client login_env)
           (json_request "run" ["--"; "frobnicate"]
              (fresh_state full_client login_env))
           failed_run).
  - reflexivity.
  - vm_compute. left.
  - reflexivity.
  - vm_compute. reflexivity.
Defined.

(** ** Argument vectors *)


(** ** Child environments *)

Lemma lookup_set_if_eq (k : string) (v : option string) (e : Env) :
  set_if k v e !! k = if Py.truthy_opt v then v else e !! k.
Proof.
  destruct v as [s|]; simpl; [|done].
  destruct (Py.truthy_str s); [|done]. by rewrite lookup_insert_eq.
Qed.

Lemma lookup_set_if_ne (k k' : string) (v : option string) (e : Env) :
  k <> k' -> set_if k v e !! k' = e !! k'.
Proof.
  intros Hne. destruct v as [s|]; simpl; [|done].
  destruct (Py.truthy_str s); [|done]. by rewrite lookup_insert_ne.
Qed.

(** C4, as stated, fails: when the caller's own environment defines
    [SESSH_JSON], the child of [attach] inherits it. *)
Lemma attach_inherits_json_mode :
  (fun req => child_env req !! "SESSH_JSON")
    <$> spawned_by (attach (always detached))
          (fresh_state test_client exported_env)
  = [Some "1"].
Proof. vm_compute. reflexivity. Qed.

(** C4, amended: [attach] spawns one child whose output it does not
    capture, so the caller's terminal is handed through; it does not
    itself enable the JSON mode, the child's [SESSH_JSON] being whatever
    the caller's [os.environ] holds (unset when it is unset there); and it
    returns [None] once the child has exited, whatever the exit code. *)
Theorem attach_hands_terminal_through
    (spawn_child : list SpawnRequest -> SpawnRequest
                   -> result CompletedProcess)
    (st : State) :
  exists req,
    spawned_by (attach spawn_child) st = [req]
    /\ capture_output req = false
    /\ child_env req !! "SESSH_JSON" = os_environ st !! "SESSH_JSON"
    /\ (attach spawn_child st).1
       = match spawn_child (spawned st) req with
         | Return _ => Return tt
         | Raise e => Raise e
         end.
Proof.
  exists (attach_request st). split; [apply spawned_by_attach|].
  split; [done|]. split.
  - unfold attach_request, attach_env; cbn [child_env].
    by rewrite !lookup_set_if_ne.
  - by rewrite attach_exec.
Qed.

(** C5, as stated, fails.  A client with no identity and no proxy jump
    still hands [SESSH_IDENTITY] and [SESSH_PROXYJUMP] to the child when
    the caller's own environment defines them.  And for one and the same
    client, here one whose identity is the empty string, whether the
    child's [SESSH_IDENTITY] equals the client's identity depends on the
    caller's environment, not on how the client was configured. *)
Lemma unconfigured_client_inherits_identity :
  (identity test_client = None /\ proxyjump test_client = None)
  /\ (fun req => (child_env req !! "SESSH_IDENTITY",
                  child_env req !! "SESSH_PROXYJUMP"))
       <$> spawned_by (call Json.value Json.decode (always detached) Status)
             (fresh_state test_client exported_env)
     = [(Some "/home/ops/.ssh/id_rsa", Some "jump@gateway")]
  /\ (fun req => bool_decide
                   (child_env req !! "SESSH_IDENTITY" = identity blank_client))
       <$> spawned_by (call Json.value Json.decode (always detached) Status)
             (fresh_state blank_client {[ "SESSH_IDENTITY" := EmptyString ]})
     = [true]
  /\ (fun req => bool_decide
                   (child_env req !! "SESSH_IDENTITY" = identity blank_client))
       <$> spawned_by (call Json.value Json.decode (always detached) Status)
             (fresh_state blank_client login_env)
     = [false].
Proof.
  split; [by split|]. split; [vm_compute; reflexivity|].
  split; vm_compute; reflexivity.
Qed.

(** C5, amended: for every JSON-mode operation the child environment has
    [SESSH_JSON] set to ["1"]; [SESSH_IDENTITY] is the client's identity
    path when an identity is configured (not [None], not empty) and is
    otherwise whatever the caller's [os.environ] holds, unset when it is
    unset there; likewise [SESSH_PROXYJUMP] and the proxy-jump spec; every
    other variable is passed as the caller has it. *)
Theorem json_child_environment (JSON : Type)
    (json_loads : string -> decoded JSON)
    (spawn_child : list SpawnRequest -> SpawnRequest
                   -> result CompletedProcess)
    (c : json_call) (st : State) :
  exists req,
    spawned_by (call JSON json_loads spawn_child c) st = [req]
    /\ child_env req !! "SESSH_JSON" = Some "1"
    /\ child_env req !! "SESSH_IDENTITY"
       = (if Py.truthy_opt (identity (self st)) then identity (self st)
          else os_environ st !! "SESSH_IDENTITY")
    /\ child_env req !! "SESSH_PROXYJUMP"
       = (if Py.truthy_opt (proxyjump (self st)) then proxyjump (self st)
          else os_environ st !! "SESSH_PROXYJUMP")
    /\ forall k : string,
         k <> "SESSH_JSON" -> k <> "SESSH_IDENTITY" ->
         k <> "SESSH_PROXYJUMP" ->
         child_env req !! k = os_environ st !! k.
Proof.
  exists (json_request (op_name c) (op_args c) st).
  split; [apply spawned_by_call|].
  unfold json_request, json_env, attach_env; cbn [child_env].
  repeat split.
  - by rewrite !lookup_set_if_ne, lookup_insert_eq.
  - rewrite lookup_set_if_ne, lookup_set_if_eq by done.
    by rewrite lookup_insert_ne.
  - rewrite lookup_set_if_eq, lookup_set_if_ne by done.
    by rewrite lookup_insert_ne.
  - intros k H1 H2 H3.
    rewrite !lookup_set_if_ne by done. by rewrite lookup_insert_ne.
Qed.

(** ** Frame properties *)

(** C6: no method changes the target configuration: after [open], [run],
    [logs], [status], [close] or [attach], whether it returned or raised,
    the attributes [alias], [host], [port], [sessh_bin], [identity] and
    [proxyjump] of the client are what they were before the call. *)
Theorem client_fields_unchanged (JSON : Type)
    (json_loads : string -> decoded JSON)
    (spawn_child : list SpawnRequest -> SpawnRequest
                   -> result CompletedProcess)
    (m : method) (st : State) :
  let st' := (invoke JSON json_loads spawn_child m st).2 in
  alias (self st') = alias (self st)
  /\ host (self st') = host (self st)
  /\ port (self st') = port (self st)
  /\ sessh_bin (self st') = sessh_bin (self st)
  /\ identity (self st') = identity (self st)
  /\ proxyjump (self st') = proxyjump (self st).
Proof.
  intros st'.
  assert (self st' = self st) as ->; [|done].
  by apply (keeps_invoke self).
Qed.

(** C8: no method changes the environment of the calling process: the
    child environment is built in a copy, so [os.environ] after [open],
    [run], [logs], [status], [close] or [attach] is what it was before the
    call, whether the call returned or raised. *)
Theorem os_environ_unchanged (JSON : Type)
    (json_loads : string -> decoded JSON)
    (spawn_child : list SpawnRequest -> SpawnRequest
                   -> result CompletedProcess)
    (m : method) (st : State) :
  os_environ (invoke JSON json_loads spawn_child m st).2 = os_environ st.
Proof. by apply (keeps_invoke os_environ). Qed.



(** C10: [logs] called without an argument asks for exactly 300 lines:
    [logs()] and [logs(300)] run the same way from every state, and the
    one child they spawn is called with the line count ["300"]. *)
Theorem logs_default_is_300 (JSON : Type)
    (json_loads : string -> decoded JSON)
    (spawn_child : list SpawnRequest -> SpawnRequest
                   -> result CompletedProcess)
    (st : State) :
  let c := self st in
  logs JSON json_loads spawn_child None st
  = logs JSON json_loads spawn_child (Some 300) st
  /\ spawned_by (logs JSON json_loads spawn_child None) st
     = spawned_by (logs JSON json_loads spawn_child (Some 300)) st
  /\ argv <$> spawned_by (logs JSON json_loads spawn_child None) st
     = [sessh_bin c :: "logs" :: alias c :: host c
        :: port_argv (port c) ++ ["300"]].
Proof.
  intros c. split; [reflexivity|]. split; [reflexivity|].
  pose proof (spawned_by_call JSON json_loads spawn_child (Logs None) st)
    as H.
  cbn [call op_name op_args default] in H. by rewrite H.
Qed.

(** ** Completion detection *)



Lemma is_digit_spec (c : ascii) :
  Json.is_digit c = true <-> decimal_digit c.
Proof.
  unfold Json.is_digit, decimal_digit.
  rewrite andb_true_iff, !Nat.leb_le. done.
Qed.






Lemma list_ascii_of_append (a b : string) :
  list_ascii_of_string (a +:+ b)
  = list_ascii_of_string a ++ list_ascii_of_string b.
Proof.
  induction a as [|c a IH]; [done|].
  change (String c a +:+ b) with (String c (a +:+ b)).
  cbn [list_ascii_of_string app]. by rewrite IH.
Qed.

Lemma append_cancel (a b c : string) : a +:+ b = a +:+ c -> b = c.
Proof.
  induction a as [|x a IH]; [done|].
  change (String x a +:+ b) with (String x (a +:+ b)).
  change (String x a +:+ c) with (String x (a +:+ c)).
  intros [= H]. by apply IH.
Qed.

(** The marker followed by text that is not the digit pattern (nothing
    at all, digits and more, other text) is not a marker line. *)
Lemma marker_then_other_text (marker tail : string) :
  ~ digit_run tail -> ~ exact_marker_line marker (marker +:+ tail).
Proof.
  intros Htail (digits & Hrun & Heq).
  apply append_cancel in Heq as ->. done.
Qed.

(** If a word repeats itself after a shift and what follows it is all
    digits, the word is all digits. *)
Lemma shifted_copy_is_digits (m pre rest ds : list ascii) :
  pre <> [] ->
  m ++ ds = pre ++ m ++ rest ->
  Forall decimal_digit ds ->
  Forall decimal_digit m.
Proof.
  intros Hpre Heq Hds.
  assert (0 < length pre)%nat as Hlen by (destruct pre; [done | simpl; lia]).
  assert (forall n j x,
            (length m - j <= n)%nat -> m !! j = Some x -> decimal_digit x)
    as Hall.
  { induction n as [|n IH]; intros j x Hn Hj.
    - apply lookup_lt_Some in Hj. lia.
    - pose proof (lookup_lt_Some _ _ _ Hj) as Hlt.
      assert ((pre ++ m ++ rest) !! (length pre + j)%nat = Some x) as Hline.
      { rewrite lookup_app_r by lia.
        replace (length pre + j - length pre)%nat with j by lia.
        by rewrite lookup_app_l. }
      rewrite <- Heq in Hline.
      destruct (decide (length pre + j < length m)%nat) as [Hin|Hout].
      + rewrite lookup_app_l in Hline by done.
        apply (IH (length pre + j)%nat x); [lia | done].
      + rewrite lookup_app_r in Hline by lia.
        by eapply Forall_lookup_1. }
  apply Forall_lookup. intros j x Hj. by apply (Hall (length m) j x); [lia|].
Qed.

(** A line in which the marker stands anywhere but at the start is not a
    marker line, whatever follows the marker, digits included, provided
    the marker itself is not made of digits only. *)
Lemma marker_off_line_start (marker pre post : string) :
  ~ Forall decimal_digit (list_ascii_of_string marker) ->
  pre <> EmptyString ->
  ~ exact_marker_line marker (pre +:+ marker +:+ post).
Proof.
  intros Hmarker Hpre (digits & [_ Hdigits] & Heq).
  apply Hmarker.
  apply (shifted_copy_is_digits _ (list_ascii_of_string pre)
           (list_ascii_of_string post) (list_ascii_of_string digits)).
  - by destruct pre.
  - by rewrite <- !list_ascii_of_append, Heq.
  - done.
Qed.

(** The lines of the sample session, by the two lemmas above. *)
Example sample_marker_has_a_non_digit :
  ~ Forall decimal_digit (list_ascii_of_string sample_marker).
Proof.
  intros H. apply Forall_cons_1 in H as [H _].
  apply is_digit_spec in H. discriminate H.
Qed.

Example marker_after_a_space :
  ~ exact_marker_line sample_marker " __SESSH_DONE_17__0".
Proof.
  apply (marker_off_line_start sample_marker " " "0");
    [apply sample_marker_has_a_non_digit | done].
Qed.

Example marker_inside_a_line :
  ~ exact_marker_line sample_marker "see __SESSH_DONE_17__0 above".
Proof.
  apply (marker_off_line_start sample_marker "see " "0 above");
    [apply sample_marker_has_a_non_digit | done].
Qed.

Example marker_in_the_typed_line :
  ~ exact_marker_line sample_marker typed_line.
Proof.
  apply (marker_off_line_start sample_marker
           ("$ " +:+ sample_command +:+ "; echo ") "$?");
    [apply sample_marker_has_a_non_digit | done].
Qed.

Example marker_then_a_letter :
  ~ exact_marker_line sample_marker "__SESSH_DONE_17__0x".
Proof.
  apply (marker_then_other_text sample_marker "0x").
  intros [_ H]. apply Forall_cons_1 in H as [_ H].
  apply Forall_cons_1 in H as [H _].
  apply is_digit_spec in H. discriminate H.
Qed.

Example bare_marker :
  ~ exact_marker_line sample_marker "__SESSH_DONE_17__".
Proof.
  apply (marker_then_other_text sample_marker EmptyString).
  by intros [H _].
Qed.






(** * Further properties of the client *)

(** X1: when the child exits with a nonzero code and an empty standard
    output, the message of the [RuntimeError] is ["sessh <op> failed: "]
    followed by the child's standard error, or by ["exit code <N>"] when
    the standard error is empty as well. *)
Theorem hard_failure_message (JSON : Type)
    (json_loads : string -> decoded JSON)
    (spawn_child : list SpawnRequest -> SpawnRequest
                   -> result CompletedProcess)
    (c : json_call) (st : State) (req : SpawnRequest)
    (cp : CompletedProcess) :
  req ∈ spawned_by (call JSON json_loads spawn_child c) st ->
  spawn_child (spawned st) req = Return cp ->
  returncode cp <> 0 ->
  stdout cp = EmptyString ->
  (stderr cp <> EmptyString ->
   (call JSON json_loads spawn_child c st).1
   = Raise (RuntimeError
              ("sessh " +:+ op_name c +:+ " failed: " +:+ stderr cp)))
  /\ (stderr cp = EmptyString ->
      (call JSON json_loads spawn_child c st).1
      = Raise (RuntimeError
                 ("sessh " +:+ op_name c +:+ " failed: exit code "
                  +:+ Py.str (returncode cp)))).
Proof.
  intros Hreq Hcp Hcode Hout.
  rewrite spawned_by_call in Hreq. apply list_elem_of_singleton in Hreq as ->.
  rewrite call_exec, run_sessh_exec, Hcp. cbn [fst].
  apply Z.eqb_neq in Hcode. rewrite Hcode, Hout. cbn [negb andb Py.truthy_str].
  split.
  - intros Herr. destruct (stderr cp); [done|reflexivity].
  - intros ->. reflexivity.
Qed.

Lemma hard_failure_message_witness :
  (call Json.value Json.decode (always silent_failure) Close
     (fresh_state test_client login_env)).1
  = Raise (RuntimeError "sessh close failed: exit code 3").
Proof.
  apply (proj2 (hard_failure_message Json.value Json.decode
                  (always silent_failure) Close
                  (fresh_state test_client login_env)
                  (json_request "close" [] (fresh_state test_client login_env))
                  silent_failure ltac:(vm_compute; left) eq_refl
                  ltac:(discriminate) eq_refl)).
  reflexivity.
Defined.

(** X2: an exit code of zero is not taken as success: when [json.loads]
    rejects the standard output of the child with
    [json.JSONDecodeError], the call raises [RuntimeError] with the
    message ["Invalid JSON from sessh: "] followed by that output. *)
Theorem zero_exit_invalid_json (JSON : Type)
    (json_loads : string -> decoded JSON)
    (spawn_child : list SpawnRequest -> SpawnRequest
                   -> result CompletedProcess)
    (c : json_call) (st : State) (req : SpawnRequest)
    (cp : CompletedProcess) :
  req ∈ spawned_by (call JSON json_loads spawn_child c) st ->
  spawn_child (spawned st) req = Return cp ->
  returncode cp = 0 ->
  json_loads (stdout cp) = JSONDecodeError ->
  (call JSON json_loads spawn_child c st).1
  = Raise (RuntimeError ("Invalid JSON from sessh: " +:+ stdout cp)).
Proof.
  intros Hreq Hcp Hcode Hjson.
  rewrite spawned_by_call in Hreq. apply list_elem_of_singleton in Hreq as ->.
  rewrite call_exec, run_sessh_exec, Hcp. cbn [fst].
  rewrite Hcode. cbn [Z.eqb negb andb]. by rewrite Hjson.
Qed.

Lemma zero_exit_invalid_json_witness :
  (call Json.value Json.decode (always detached) (Logs None)
     (fresh_state test_client login_env)).1
  = Raise (RuntimeError "Invalid JSON from sessh: ").
Proof.
  apply (zero_exit_invalid_json Json.value Json.decode (always detached)
           (Logs None) (fresh_state test_client login_env)
           (json_request "logs" ["300"] (fresh_state test_client login_env))
           detached).
  - vm_compute. left.
  - reflexivity.
  - reflexivity.
  - reflexivity.
Defined.

(** X3: a JSON-mode call returns a value only when the child ran to
    completion and its standard output decodes to that value; it never
    makes up a result, and it never returns after a nonzero exit with an
    empty standard output. *)
Theorem returns_only_decoded_stdout (JSON : Type)
    (json_loads : string -> decoded JSON)
    (spawn_child : list SpawnRequest -> SpawnRequest
                   -> result CompletedProcess)
    (c : json_call) (st : State) (v : JSON) :
  (call JSON json_loads spawn_child c st).1 = Return v ->
  exists req cp,
    spawned_by (call JSON json_loads spawn_child c) st = [req]
    /\ spawn_child (spawned st) req = Return cp
    /\ json_loads (stdout cp) = Decoded v
    /\ (returncode cp = 0 \/ stdout cp <> EmptyString).
Proof.
  intros Hret.
  exists (json_request (op_name c) (op_args c) st).
  rewrite call_exec, run_sessh_exec in Hret. cbn [fst] in Hret.
  destruct (spawn_child _ _) as [cp|e] eqn:Hcp; [|done].
  exists cp. split; [apply spawned_by_call|]. split; [done|].
  destruct (negb (returncode cp =? 0) && negb (Py.truthy_str (stdout cp)))
    eqn:Hguard; [done|].
  destruct (json_loads (stdout cp)) as [w| |e] eqn:Hjson; [|done..].
  split; [congruence|].
  apply andb_false_iff in Hguard as [H|H].
  - left. apply negb_false_iff in H. by apply Z.eqb_eq.
  - right. apply negb_false_iff in H. by destruct (stdout cp).
Qed.

Lemma returns_only_decoded_stdout_witness :
  exists req cp,
    spawned_by (call Json.value Json.decode (always opened) Open)
      (fresh_state test_client login_env) = [req]
    /\ always opened (spawned (fresh_state test_client login_env)) req
       = Return cp
    /\ Json.decode (stdout cp)
       = Decoded (Json.Obj [("ok", Json.Bool true); ("op", Json.Str "open")])
    /\ (returncode cp = 0 \/ stdout cp <> EmptyString).
Proof.
  apply (returns_only_decoded_stdout Json.value Json.decode (always opened)
           Open (fresh_state test_client login_env)).
  vm_compute. reflexivity.
Defined.

(** X4: an exception raised by [subprocess.run], as when the binary is
    not installed, leaves every method unchanged: it is neither caught
    nor wrapped in a [RuntimeError]. *)
Theorem spawn_failure_propagates (JSON : Type)
    (json_loads : string -> decoded JSON)
    (spawn_child : list SpawnRequest -> SpawnRequest
                   -> result CompletedProcess)
    (m : method) (st : State) (req : SpawnRequest) (e : exn) :
  req ∈ spawned_by (invoke JSON json_loads spawn_child m) st ->
  spawn_child (spawned st) req = Raise e ->
  (invoke JSON json_loads spawn_child m st).1 = Raise e.
Proof.
  intros Hreq He.
  rewrite spawned_by_invoke in Hreq. apply list_elem_of_singleton in Hreq as ->.
  destruct m as [c|]; unfold invoke, bind; cbn [method_request] in He.
  - by rewrite call_exec, run_sessh_exec, He.
  - by rewrite attach_exec, He.
Qed.

Lemma spawn_failure_propagates_witness :
  (invoke Json.value Json.decode not_installed (Json (Run "uptime"))
     (fresh_state test_client login_env)).1
  = Raise (OSError "No such file or directory: 'sessh'").
Proof.
  apply (spawn_failure_propagates Json.value Json.decode not_installed
           (Json (Run "uptime")) (fresh_state test_client login_env)
           (json_request "run" ["--"; "uptime"]
              (fresh_state test_client login_env))).
  - vm_compute. left.
  - reflexivity.
Defined.


(** X6: the default binary.  A client constructed without [sessh_bin], or
    with an empty one, calls ["sessh"], to be found on the search path; a
    client constructed with a non-empty [sessh_bin] calls exactly that,
    in every method. *)
Theorem default_binary (JSON : Type)
    (json_loads : string -> decoded JSON)
    (spawn_child : list SpawnRequest -> SpawnRequest
                   -> result CompletedProcess)
    (m : method) (st : State) (a h : string) (p : option Z)
    (bin i pj : option string) :
  self st = __init__ a h p bin i pj ->
  let called :=
    (fun req => head (argv req))
      <$> spawned_by (invoke JSON json_loads spawn_child m) st in
  (bin = None \/ bin = Some EmptyString -> called = [Some "sessh"])
  /\ (forall path, bin = Some path -> path <> EmptyString ->
      called = [Some path]).
Proof.
  intros Hself called. subst called. rewrite spawned_by_invoke.
  assert (head (argv (method_request m st)) = Some (sessh_bin (self st)))
    as Hhead by by destruct m.
  cbn [fmap list_fmap]. rewrite Hhead, Hself. cbn [sessh_bin __init__].
  split.
  - by intros [-> | ->].
  - intros path -> Hpath. by destruct path.
Qed.

Lemma default_binary_witness :
  (fun req => head (argv req))
    <$> spawned_by (invoke Json.value Json.decode (always opened) Attach)
          (fresh_state blank_client login_env)
  = [Some "sessh"]
  /\ (fun req => head (argv req))
       <$> spawned_by (invoke Json.value Json.decode (always opened)
                         (Json Open))
             (fresh_state full_client login_env)
     = [Some "/opt/sessh/sessh"].
Proof.
  split.
  - apply (proj1 (default_binary Json.value Json.decode (always opened)
                    Attach (fresh_state blank_client login_env)
                    "test" "user@example.com" None None
                    (Some EmptyString) (Some EmptyString) eq_refl)).
    left. reflexivity.
  - apply (proj2 (default_binary Json.value Json.decode (always opened)
                    (Json Open) (fresh_state full_client login_env)
                    "gpu" "ubuntu@10.0.0.7" (Some 2222)
                    (Some "/opt/sessh/sessh")
                    (Some "/home/ops/.ssh/id_ed25519") (Some "ops@bastion")
                    eq_refl) "/opt/sessh/sessh").
    + reflexivity.
    + discriminate.
Defined.

(** X7: calls are independent.  What a method asks of the binary depends
    on the client and on [os.environ] only: after any number of earlier
    calls, whatever they answered, every method spawns the request it
    would have spawned at the start.  Nothing a call adds to its child's
    environment leaks into a later child. *)
Theorem calls_are_independent (JSON : Type)
    (json_loads : string -> decoded JSON)
    (spawn_child : list SpawnRequest -> SpawnRequest
                   -> result CompletedProcess)
    (st st' : State) (m : method) :
  reachable JSON json_loads spawn_child st st' ->
  spawned_by (invoke JSON json_loads spawn_child m) st'
  = spawned_by (invoke JSON json_loads spawn_child m) st.
Proof.
  intros Hreach. rewrite !spawned_by_invoke. f_equal.
  induction Hreach as [|st' k _ IH]; [done|].
  rewrite <- IH, invoke_state. by destruct m.
Qed.

Lemma calls_are_independent_witness :
  spawned_by (invoke Json.value Json.decode (always opened) Attach)
    (invoke Json.value Json.decode (always opened) (Json (Run "pwd"))
       (invoke Json.value Json.decode (always opened) (Json Open)
          (fresh_state full_client login_env)).2).2
  = spawned_by (invoke Json.value Json.decode (always opened) Attach)
      (fresh_state full_client login_env).
Proof.
  apply (calls_are_independent Json.value Json.decode (always opened)).
  apply reachable_call, reachable_call, reachable_start.
Defined.

(** X8: the environment a JSON-mode child receives is the environment the
    child of [attach] would receive from the same state, except for
    [SESSH_JSON]. *)
Theorem json_env_extends_attach_env (JSON : Type)
    (json_loads : string -> decoded JSON)
    (spawn_child : list SpawnRequest -> SpawnRequest
                   -> result CompletedProcess)
    (c : json_call) (st : State) (asked attached : SpawnRequest)
    (k : string) :
  asked ∈ spawned_by (call JSON json_loads spawn_child c) st ->
  attached ∈ spawned_by (attach spawn_child) st ->
  k <> "SESSH_JSON" ->
  child_env asked !! k = child_env attached !! k.
Proof.
  intros Hasked Hattached Hk.
  rewrite spawned_by_call in Hasked.
  apply list_elem_of_singleton in Hasked as ->.
  rewrite spawned_by_attach in Hattached.
  apply list_elem_of_singleton in Hattached as ->.
  unfold json_request, attach_request, json_env, attach_env.
  cbn [child_env].
  destruct (decide (k = "SESSH_PROXYJUMP")) as [->|Hpj].
  - rewrite !lookup_set_if_eq. destruct (Py.truthy_opt _); [done|].
    rewrite !lookup_set_if_ne by done. by rewrite lookup_insert_ne.
  - rewrite !(lookup_set_if_ne "SESSH_PROXYJUMP") by done.
    destruct (decide (k = "SESSH_IDENTITY")) as [->|Hid].
    + rewrite !lookup_set_if_eq. destruct (Py.truthy_opt _); [done|].
      by rewrite lookup_insert_ne.
    + rewrite !lookup_set_if_ne by done. by rewrite lookup_insert_ne.
Qed.

Lemma json_env_extends_attach_env_witness :
  child_env (json_request "status" [] (fresh_state full_client exported_env))
    !! "SESSH_IDENTITY"
  = child_env (attach_request (fresh_state full_client exported_env))
      !! "SESSH_IDENTITY".
Proof.
  apply (json_env_extends_attach_env Json.value Json.decode (always opened)
           Status (fresh_state full_client exported_env)).
  - vm_compute. left.
  - vm_compute. left.
  - discriminate.
Defined.

(** * The example script *)

Section ScriptLogic.

Variable JSON : Type.
Variable json_loads : string -> decoded JSON.
Variable spawn_child :
  list SpawnRequest -> SpawnRequest -> result CompletedProcess.
Variable as_dict : JSON -> option (gmap string JSON).
Variable type_name : JSON -> string.
Variable to_str : JSON -> string.

Lemma run_sessh_state (cmd : string) (args : list string) (st : State) :
  (_run_sessh JSON json_loads spawn_child cmd args st).2
  = after (json_request cmd args st) st.
Proof. by rewrite run_sessh_exec. Qed.

(** A method call made by the script: the interpreter state moves as the
    method moves it, the rest of the process stays. *)
Lemma lift_run_sessh (cmd : string) (args : list string) (p : Process) :
  lift (_run_sessh JSON json_loads spawn_child cmd args) p
  = (match (_run_sessh JSON json_loads spawn_child cmd args (interp p)).1 with
     | Return v => Done v
     | Raise e => Failed (Raised e)
     end,
     set_interp (after (json_request cmd args (interp p)) (interp p)) p).
Proof.
  unfold lift. rewrite <- run_sessh_state.
  by destruct (_run_sessh _ _ _ _ _ _) as [[v|e] st].
Qed.

Lemma sinv_ret {A} (I : Process -> Prop) (a : A) : sinv I (sret a).
Proof. by intros p. Qed.

Lemma sinv_raise {A} (I : Process -> Prop) (e : script_exn) :
  sinv I (@sraise A e).
Proof. by intros p. Qed.

Lemma sinv_bind {A B} (I : Process -> Prop) (m : Script A)
    (k : A -> Script B) :
  sinv I m -> (forall a, sinv I (k a)) -> sinv I (sbind m k).
Proof.
  intros Hm Hk p Hp. unfold sbind. specialize (Hm p Hp).
  destruct (m p) as [[a|e] p']; [by apply Hk | done].
Qed.

Lemma sinv_print (st0 : State) (line : string) :
  sinv (session st0) (print line).
Proof. by intros p. Qed.

Lemma sinv_reply_get (st0 : State) (v : JSON) (key : string) :
  sinv (session st0) (reply_get JSON as_dict type_name v key).
Proof. intros p. unfold reply_get. by destruct (as_dict v). Qed.

(** Inside a session, a method other than [close] keeps the session. *)
Lemma sinv_lift_run_sessh (st0 : State) (cmd : string)
    (args : list string) :
  cmd <> "close" ->
  sinv (session st0)
    (lift (_run_sessh JSON json_loads spawn_child cmd args)).
Proof.
  intros Hcmd p (Hself & Henv & body & Hbody & Hops).
  rewrite lift_run_sessh. unfold session.
  cbn [snd interp set_interp after self os_environ spawned].
  split; [done|]. split; [done|].
  exists (body ++ [json_request cmd args (interp p)]). split.
  - by rewrite Hbody, app_assoc.
  - apply Forall_app. split; [done|]. apply Forall_singleton.
    unfold operation. cbn. congruence.
Qed.

(** The [try] block of the script keeps the session it runs in: it
    never spawns [close], never replaces the client and never touches
    [os.environ]. *)
Lemma sinv_main_try (st0 : State) :
  sinv (session st0)
    (main_try JSON json_loads spawn_child as_dict type_name to_str).
Proof.
  unfold main_try, open, run, logs, status.
  repeat first
    [ apply sinv_bind; [|intros ?]
    | apply sinv_print
    | apply sinv_reply_get
    | apply sinv_lift_run_sessh; discriminate ].
Qed.

Lemma argv_host (args : list string) :
  match args with
  | _ :: h :: _ => h
  | _ => "localhost"
  end = default "localhost" (args !! 1%nat).
Proof. by destruct args as [|? [|? ?]]. Qed.

(** Up to its [try] statement the script only reads and prints. *)
Lemma main_prelude (p : Process) :
  main JSON json_loads spawn_child as_dict type_name to_str p
  = try_finally
      (main_try JSON json_loads spawn_child as_dict type_name to_str)
      (main_finally JSON json_loads spawn_child)
      (session_process p).
Proof.
  unfold main, session_process, session_start, example_target.
  rewrite argv_host.
  unfold sbind, environ_get, print, new_client, set_printed, set_interp.
  cbn [interp printed sys_argv]. by rewrite <- !app_assoc.
Qed.

Lemma main_finally_exec (p : Process) :
  main_finally JSON json_loads spawn_child p
  = (match (close JSON json_loads spawn_child (interp p)).1 with
     | Return _ => Done tt
     | Raise e => Failed (Raised e)
     end,
     set_interp (after (json_request "close" [] (interp p)) (interp p)) p).
Proof.
  unfold main_finally, close, sbind. rewrite lift_run_sessh.
  by destruct (_run_sessh _ _ _ _ _ _).1.
Qed.

End ScriptLogic.

Lemma json_request_after (cmd : string) (args : list string)
    (req : SpawnRequest) (st : State) :
  json_request cmd args (after req st) = json_request cmd args st.
Proof. reflexivity. Qed.

(** X9: the cleanup guarantee of [examples/local.py].  However the [try]
    block ends (it ran through, a method raised, a reply was not a
    [dict]), [main] spawns [close] exactly once, as its last child, for
    the alias ["local-test"] and the target [user@host]; [user] is [USER]
    from the environment, else [USERNAME], else ["user"], and [host] is
    the first command line argument, else ["localhost"]. *)
Theorem local_example_always_closes (JSON : Type)
    (json_loads : string -> decoded JSON)
    (spawn_child : list SpawnRequest -> SpawnRequest
                   -> result CompletedProcess)
    (as_dict : JSON -> option (gmap string JSON))
    (type_name to_str : JSON -> string) (p : Process) :
  let env := os_environ (interp p) in
  let user := default (default "user" (env !! "USERNAME")) (env !! "USER") in
  let host := default "localhost" (sys_argv p !! 1%nat) in
  exists body last,
    spawned_in
      (main JSON json_loads spawn_child as_dict type_name to_str) p
    = body ++ [last]
    /\ argv last = ["sessh"; "close"; "local-test"; user +:+ "@" +:+ host]
    /\ Forall (fun req => operation req <> Some "close") body.
Proof.
  intros env user host.
  pose proof (sinv_main_try JSON json_loads spawn_child as_dict type_name
                to_str (session_start p) (session_process p)) as Htry.
  destruct Htry as (Hself & Henv & body & Hbody & Hops).
  { split; [done|]. split; [done|]. exists []. by rewrite app_nil_r. }
  exists body, (json_request "close" [] (session_start p)).
  split; [|by split].
  unfold spawned_in. rewrite main_prelude. unfold try_finally.
  destruct (main_try _ _ _ _ _ _ _) as [tried p'].
  rewrite main_finally_exec. cbn [snd] in *.
  assert (json_request "close" [] (interp p')
          = json_request "close" [] (session_start p)) as ->.
  { unfold json_request. by rewrite Hself, Henv. }
  destruct (close _ _ _ _).1;
    cbn [snd interp set_interp after spawned]; rewrite Hbody;
    cbn [session_start set_self spawned];
    by rewrite <- app_assoc, drop_app_length.
Qed.

Ltac script_tidy HR :=
  cbn [interp printed sys_argv set_interp set_printed print fst snd] in HR;
  rewrite ?json_request_after in HR.

Ltac script_print HR := unfold sbind at 1 in HR; script_tidy HR.

Ltac script_call HR :=
  unfold sbind at 1 in HR; rewrite lift_run_sessh in HR; script_tidy HR.

(** X10: when [open] raises, the script attempts nothing else: it spawns
    [open] and then [close] and no [run], [logs] or [status]; it has
    printed its header and the line announcing [open]; and it ends with
    the exception of [close] if [close] raises too, with the exception of
    [open] otherwise. *)
Theorem local_example_open_fails (JSON : Type)
    (json_loads : string -> decoded JSON)
    (spawn_child : list SpawnRequest -> SpawnRequest
                   -> result CompletedProcess)
    (as_dict : JSON -> option (gmap string JSON))
    (type_name to_str : JSON -> string) (p : Process) (e : exn) :
  (open JSON json_loads spawn_child (session_start p)).1 = Raise e ->
  let run_main :=
    main JSON json_loads spawn_child as_dict type_name to_str in
  operation <$> spawned_in run_main p = [Some "open"; Some "close"]
  /\ printed_in run_main p
     = ["=== Local Sessh Example ===";
        "Host: " +:+ example_target p;
        EmptyString;
        "Opening sessh session..."]
  /\ (run_main p).1
     = match (close JSON json_loads spawn_child
                (open JSON json_loads spawn_child (session_start p)).2).1 with
       | Raise e' => Failed (Raised e')
       | Return _ => Failed (Raised e)
       end.
Proof.
  intros Hopen run_main. subst run_main.
  unfold spawned_in, printed_in.
  remember (main JSON json_loads spawn_child as_dict type_name to_str p)
    as R eqn:HR.
  rewrite main_prelude in HR. unfold try_finally, main_try in HR.
  unfold session_process in HR.
  script_print HR. unfold open in HR, Hopen. script_call HR.
  rewrite Hopen in HR. rewrite main_finally_exec in HR. script_tidy HR.
  unfold open. rewrite run_sessh_state.
  destruct (close _ _ _ _).1; subst R;
    cbn [fst snd interp printed set_interp set_printed after spawned
         session_start set_self];
    rewrite <- !app_assoc, !drop_app_length; done.
Qed.

Lemma local_example_open_fails_witness :
  operation
    <$> spawned_in
          (main Json.value Json.decode not_installed sample_as_dict
             sample_type_name sample_str) sample_process
  = [Some "open"; Some "close"]
  /\ printed_in
       (main Json.value Json.decode not_installed sample_as_dict
          sample_type_name sample_str) sample_process
     = ["=== Local Sessh Example ==="; "Host: ops@staging"; EmptyString;
        "Opening sessh session..."]
  /\ (main Json.value Json.decode not_installed sample_as_dict
        sample_type_name sample_str sample_process).1
     = Failed (Raised (OSError "No such file or directory: 'sessh'")).
Proof.
  apply (local_example_open_fails Json.value Json.decode not_installed
           sample_as_dict sample_type_name sample_str sample_process
           (OSError "No such file or directory: 'sessh'")).
  vm_compute. reflexivity.
Defined.

Ltac script_returns H c HR :=
  script_call HR;
  match type of HR with
  | context [(_run_sessh _ _ _ _ _ ?st).1] =>
      let v := fresh "v" in
      let d := fresh "d" in
      let Hv := fresh "Hv" in
      let Hd := fresh "Hd" in
      destruct (H st c) as (v & d & Hv & Hd);
      rewrite call_exec in Hv; cbn [op_name op_args] in Hv;
      rewrite Hv in HR; clear Hv
  end.

Ltac script_get HR Hd :=
  unfold sbind at 1 in HR; unfold reply_get at 1 in HR; rewrite Hd in HR;
  unfold sret at 1 in HR.

(** X11: when every method returns a [dict], the script runs through:
    it returns normally, its last line is the success message, and it
    has spawned exactly eight children, in this order: [open], the four
    [run]s with their commands, [logs 50], [status] and [close], all for
    the alias ["local-test"] and the same target. *)
Theorem local_example_runs_through (JSON : Type)
    (json_loads : string -> decoded JSON)
    (spawn_child : list SpawnRequest -> SpawnRequest
                   -> result CompletedProcess)
    (as_dict : JSON -> option (gmap string JSON))
    (type_name to_str : JSON -> string) (p : Process) :
  (forall st c, exists v d,
     (call JSON json_loads spawn_child c st).1 = Return v
     /\ as_dict v = Some d) ->
  let run_main :=
    main JSON json_loads spawn_child as_dict type_name to_str in
  let sessh op := ["sessh"; op; "local-test"; example_target p] in
  (run_main p).1 = Done tt
  /\ last (printed (run_main p).2) = Some "Example completed successfully!"
  /\ argv <$> spawned_in run_main p
     = [sessh "open";
        sessh "run" ++ ["--"; "echo 'Hello from sessh!'"];
        sessh "run" ++ ["--"; "pwd"];
        sessh "run" ++ ["--"; "whoami"];
        sessh "run" ++ ["--"; "cd /tmp && pwd && echo 'State persisted!'"];
        sessh "logs" ++ ["50"];
        sessh "status";
        sessh "close"].
Proof.
  intros H run_main sessh. subst run_main sessh. unfold spawned_in.
  remember (main JSON json_loads spawn_child as_dict type_name to_str p)
    as R eqn:HR.
  rewrite main_prelude in HR. unfold try_finally in HR.
  unfold main_try, open, run, logs, status in HR.
  unfold session_process in HR.
  script_print HR.
  script_returns H Open HR.
  script_print HR.
  script_returns H (Run "echo 'Hello from sessh!'") HR.
  script_returns H (Run "pwd") HR.
  script_returns H (Run "whoami") HR.
  script_returns H (Run "cd /tmp && pwd && echo 'State persisted!'") HR.
  script_print HR. script_print HR.
  script_returns H (Logs (Some 50)) HR.
  script_get HR Hd4.
  script_print HR. script_print HR. script_print HR.
  script_returns H Status HR.
  script_get HR Hd5. script_get HR Hd5.
  script_print HR. script_print HR. script_tidy HR.
  rewrite main_finally_exec in HR. script_tidy HR.
  match type of HR with
  | context [(close _ _ _ ?st).1] =>
      destruct (H st Close) as (v6 & d6 & Hv6 & _);
      cbn [call] in Hv6; rewrite Hv6 in HR
  end.
  subst R. cbn [fst snd interp printed set_interp set_printed].
  split; [done|]. split; [apply last_snoc|].
  cbn [after spawned session_start set_self].
  rewrite <- !app_assoc, drop_app_length. reflexivity.
Qed.

Lemma local_example_runs_through_witness :
  (main Json.value Json.decode (always healthy) sample_as_dict
     sample_type_name sample_str sample_process).1 = Done tt
  /\ last (printed
             (main Json.value Json.decode (always healthy) sample_as_dict
                sample_type_name sample_str sample_process).2)
     = Some "Example completed successfully!"
  /\ argv
       <$> spawned_in
             (main Json.value Json.decode (always healthy) sample_as_dict
                sample_type_name sample_str) sample_process
     = [["sessh"; "open"; "local-test"; "ops@staging"];
        ["sessh"; "run"; "local-test"; "ops@staging"; "--";
         "echo 'Hello from sessh!'"];
        ["sessh"; "run"; "local-test"; "ops@staging"; "--"; "pwd"];
        ["sessh"; "run"; "local-test"; "ops@staging"; "--"; "whoami"];
        ["sessh"; "run"; "local-test"; "ops@staging"; "--";
         "cd /tmp && pwd && echo 'State persisted!'"];
        ["sessh"; "logs"; "local-test"; "ops@staging"; "50"];
        ["sessh"; "status"; "local-test"; "ops@staging"];
        ["sessh"; "close"; "local-test"; "ops@staging"]].
Proof.
  apply (local_example_runs_through Json.value Json.decode (always healthy)
           sample_as_dict sample_type_name sample_str sample_process).
  intros st c.
  exists (Json.Obj [("ok", Json.Bool true); ("output", Json.Str "/tmp");
                    ("master", Json.Num 1); ("session", Json.Num 1)]).
  eexists. split; [|reflexivity].
  rewrite call_exec, run_sessh_exec. reflexivity.
Defined.



(** X15: an exception of another class than [json.JSONDecodeError]
    that [json.loads] raises on the standard output of the child (a
    [ValueError] for an integer beyond the digit limit, a
    [RecursionError] for nesting beyond the recursion limit) is not
    wrapped in a [RuntimeError]: the call raises that very exception. *)
Theorem decoder_exception_is_not_wrapped (JSON : Type)
    (json_loads : string -> decoded JSON)
    (spawn_child : list SpawnRequest -> SpawnRequest
                   -> result CompletedProcess)
    (c : json_call) (st : State) (req : SpawnRequest)
    (cp : CompletedProcess) (e : exn) :
  req ∈ spawned_by (call JSON json_loads spawn_child c) st ->
  spawn_child (spawned st) req = Return cp ->
  returncode cp = 0 \/ stdout cp <> EmptyString ->
  json_loads (stdout cp) = Uncaught e ->
  (call JSON json_loads spawn_child c st).1 = Raise e.
Proof.
  intros Hreq Hcp Hguard Hjson.
  rewrite spawned_by_call in Hreq. apply list_elem_of_singleton in Hreq as ->.
  rewrite call_exec, run_sessh_exec, Hcp. cbn [fst].
  assert (negb (returncode cp =? 0) && negb (Py.truthy_str (stdout cp))
          = false) as ->.
  { apply andb_false_iff. destruct Hguard as [->|Hout]; [by left|].
    right. by destruct (stdout cp). }
  by rewrite Hjson.
Qed.

Lemma decoder_exception_is_not_wrapped_witness :
  (call Json.value (decode_with_digit_limit 4300) (always huge_integer)
     (Run "cat digits.txt") (fresh_state test_client login_env)).1
  = Raise (ValueError (digit_limit_message 4300 4301)).
Proof.
  apply (decoder_exception_is_not_wrapped Json.value
           (decode_with_digit_limit 4300) (always huge_integer)
           (Run "cat digits.txt") (fresh_state test_client login_env)
           (json_request "run" ["--"; "cat digits.txt"]
              (fresh_state test_client login_env))
           huge_integer).
  - vm_compute. left.
  - reflexivity.
  - left. reflexivity.
  - vm_compute. reflexivity.
Defined.

Ltac script_answers H c HR :=
  script_call HR;
  match type of HR with
  | context [(_run_sessh _ _ _ _ _ ?st).1] =>
      let Hv := fresh "Hv" in
      pose proof (H st c) as Hv;
      rewrite call_exec in Hv; cbn [op_name op_args] in Hv;
      rewrite Hv in HR; clear Hv
  end.

(** X13: missing keys are not errors.  In a world where every method
    returns the same [dict] and that [dict] has none of the keys
    ["output"], ["master"] and ["session"], the script still runs
    through, printing an empty line for the logs and
    ["Master: None, Session: None"] for the status. *)
Theorem local_example_missing_keys (JSON : Type)
    (json_loads : string -> decoded JSON)
    (spawn_child : list SpawnRequest -> SpawnRequest
                   -> result CompletedProcess)
    (as_dict : JSON -> option (gmap string JSON))
    (type_name to_str : JSON -> string) (p : Process)
    (v : JSON) (d : gmap string JSON) :
  (forall st c, (call JSON json_loads spawn_child c st).1 = Return v) ->
  as_dict v = Some d ->
  d !! "output" = None -> d !! "master" = None -> d !! "session" = None ->
  let run_main :=
    main JSON json_loads spawn_child as_dict type_name to_str in
  (run_main p).1 = Done tt
  /\ printed_in run_main p
     = ["=== Local Sessh Example ===";
        "Host: " +:+ example_target p;
        EmptyString;
        "Opening sessh session...";
        "Running commands...";
        EmptyString;
        "=== Session Logs ===";
        EmptyString;
        EmptyString;
        "=== Session Status ===";
        "Master: None, Session: None";
        EmptyString;
        "Example completed successfully!"].
Proof.
  intros H Hd Houtput Hmaster Hsession run_main. subst run_main.
  unfold printed_in.
  remember (main JSON json_loads spawn_child as_dict type_name to_str p)
    as R eqn:HR.
  rewrite main_prelude in HR. unfold try_finally in HR.
  unfold main_try, open, run, logs, status in HR.
  unfold session_process in HR.
  script_print HR.
  script_answers H Open HR.
  script_print HR.
  script_answers H (Run "echo 'Hello from sessh!'") HR.
  script_answers H (Run "pwd") HR.
  script_answers H (Run "whoami") HR.
  script_answers H (Run "cd /tmp && pwd && echo 'State persisted!'") HR.
  script_print HR. script_print HR.
  script_answers H (Logs (Some 50)) HR.
  script_get HR Hd. rewrite Houtput in HR.
  script_print HR. script_print HR. script_print HR.
  script_answers H Status HR.
  script_get HR Hd. script_get HR Hd. rewrite Hmaster, Hsession in HR.
  script_print HR. script_print HR. script_tidy HR.
  rewrite main_finally_exec in HR. script_tidy HR.
  match type of HR with
  | context [(close _ _ _ ?st).1] =>
      pose proof (H st Close) as Hclose;
      cbn [call] in Hclose; rewrite Hclose in HR
  end.
  subst R. cbn [fst snd interp printed set_interp set_printed].
  split; [done|].
  rewrite <- !app_assoc, drop_app_length. reflexivity.
Qed.

Lemma local_example_missing_keys_witness :
  (main Json.value Json.decode (always empty_object) sample_as_dict
     sample_type_name sample_str sample_process).1 = Done tt
  /\ printed_in
       (main Json.value Json.decode (always empty_object) sample_as_dict
          sample_type_name sample_str) sample_process
     = ["=== Local Sessh Example ===";
        "Host: " +:+ example_target sample_process;
        EmptyString;
        "Opening sessh session...";
        "Running commands...";
        EmptyString;
        "=== Session Logs ===";
        EmptyString;
        EmptyString;
        "=== Session Status ===";
        "Master: None, Session: None";
        EmptyString;
        "Example completed successfully!"].
Proof.
  apply (local_example_missing_keys Json.value Json.decode
           (always empty_object) sample_as_dict sample_type_name sample_str
           sample_process (Json.Obj []) ∅).
  - intros st c. rewrite call_exec, run_sessh_exec. reflexivity.
  - reflexivity.
  - reflexivity.
  - reflexivity.
  - reflexivity.
Defined.

(** X14: a reply that is not a [dict].  In a world where every method
    returns the same document and that document is not a [dict], the
    script fails at the first [.get], on the reply of [logs], with the
    [AttributeError] that names the document's type; it has then spawned
    [open], four [run]s and [logs], never asks for [status], and still
    spawns [close]. *)
Theorem local_example_reply_not_a_dict (JSON : Type)
    (json_loads : string -> decoded JSON)
    (spawn_child : list SpawnRequest -> SpawnRequest
                   -> result CompletedProcess)
    (as_dict : JSON -> option (gmap string JSON))
    (type_name to_str : JSON -> string) (p : Process) (v : JSON) :
  (forall st c, (call JSON json_loads spawn_child c st).1 = Return v) ->
  as_dict v = None ->
  let run_main :=
    main JSON json_loads spawn_child as_dict type_name to_str in
  (run_main p).1
  = Failed (AttributeError
              ("'" +:+ type_name v +:+ "' object has no attribute 'get'"))
  /\ operation <$> spawned_in run_main p
     = [Some "open"; Some "run"; Some "run"; Some "run"; Some "run";
        Some "logs"; Some "close"].
Proof.
  intros H Hd run_main. subst run_main. unfold spawned_in.
  remember (main JSON json_loads spawn_child as_dict type_name to_str p)
    as R eqn:HR.
  rewrite main_prelude in HR. unfold try_finally in HR.
  unfold main_try, open, run, logs, status in HR.
  unfold session_process in HR.
  script_print HR.
  script_answers H Open HR.
  script_print HR.
  script_answers H (Run "echo 'Hello from sessh!'") HR.
  script_answers H (Run "pwd") HR.
  script_answers H (Run "whoami") HR.
  script_answers H (Run "cd /tmp && pwd && echo 'State persisted!'") HR.
  script_print HR. script_print HR.
  script_answers H (Logs (Some 50)) HR.
  unfold sbind at 1 in HR. unfold reply_get at 1 in HR. rewrite Hd in HR.
  unfold sraise at 1 in HR.
  rewrite main_finally_exec in HR. script_tidy HR.
  match type of HR with
  | context [(close _ _ _ ?st).1] =>
      pose proof (H st Close) as Hclose;
      cbn [call] in Hclose; rewrite Hclose in HR
  end.
  subst R. cbn [fst snd interp printed set_interp set_printed].
  split; [done|].
  cbn [after spawned session_start set_self].
  rewrite <- !app_assoc, drop_app_length. reflexivity.
Qed.

Lemma local_example_reply_not_a_dict_witness :
  (main Json.value Json.decode (always empty_list) sample_as_dict
     sample_type_name sample_str sample_process).1
  = Failed (AttributeError "'list' object has no attribute 'get'")
  /\ operation
       <$> spawned_in
             (main Json.value Json.decode (always empty_list) sample_as_dict
                sample_type_name sample_str) sample_process
     = [Some "open"; Some "run"; Some "run"; Some "run"; Some "run";
        Some "logs"; Some "close"].
Proof.
  apply (local_example_reply_not_a_dict Json.value Json.decode
           (always empty_list) sample_as_dict sample_type_name sample_str
           sample_process (Json.Arr [])).
  - intros st c. rewrite call_exec, run_sessh_exec. reflexivity.
  - reflexivity.
Defined.
